(** * Genomi-kartografia: the loader and the topography builder of [geeni.py]

    A shallow embedding of [load_data], [create_topography] and the
    upload-to-chart flow at the bottom of the script.

    Conventions of the embedding.
    - A numpy/pandas [float64] is a [spec_float] of the Standard Library with
      the binary64 parameters; sums are the library's correctly rounded
      [SFadd], so accumulation order is visible exactly as it is in numpy.
    - Every comparison the script itself makes has a float on one side and a
      Python integer on the other ([x_base >= start], [x_base <= end],
      [Centimorgans >= min_cm], [y_base > 0], [color_val > 20]).  It is
      embedded as the comparison of the two real values.  numpy converts the
      integer to binary64 first; rounding to nearest is monotone and is the
      identity below [2^53], and every float compared here against a
      coordinate is a grid position of at most 250,000,000, so both readings
      give the same boolean ([grid_comparisons_agree] checks it at the
      integers around every grid position).
    - A [DataFrame] carries its header labels and a typed view of the five
      columns the script reads, which the script consults only once
      [load_data] has found the five labels: integer coordinates, float64
      strengths, string match names, no empty cells.  The [Chromosome] cell
      keeps the one dtype distinction the script is sensitive to: pandas
      yields integers when the column holds only numerals and strings
      otherwise, and [df['Chromosome'] == chrom] compares against a
      string.
    - A Python [str] is the [string] of its UTF-8 bytes.
    - Streamlit calls append elements to the page; they are threaded through
      a small state monad [St].
    - What pandas computes inside [read_csv], [GroupBy.sum] and
      [Series.sort_values] is not part of the script: these three are
      parameters of the embedding (section [Script]). *)

From Stdlib Require Import ZArith List String Ascii Bool Lia.
From Stdlib Require Import QArith Qabs Qround.
From Stdlib Require Import Permutation Sorted.
From Stdlib Require Import DecimalString.
From Stdlib Require Import SpecFloat.
Import ListNotations.

Local Open Scope Z_scope.
Local Open Scope string_scope.
Local Open Scope list_scope.

(* ================================================================= *)
(** ** binary64 *)

Module Float64.

Definition prec : Z := 53.
Definition emax : Z := 1024.

Definition float64 : Type := spec_float.

Definition add : float64 -> float64 -> float64 := SFadd prec emax.
Definition mul : float64 -> float64 -> float64 := SFmul prec emax.
Definition div : float64 -> float64 -> float64 := SFdiv prec emax.

(** [float(n)] for a Python integer. *)
Definition of_Z (n : Z) : float64 := binary_normalize prec emax n 0 false.

Definition zero : float64 := S754_zero false.

Definition is_nan (v : float64) : bool :=
  match v with S754_nan => true | _ => false end.

Definition valid (v : float64) : bool := valid_binary prec emax v.

(** The real value of a finite float, as a rational. *)
Definition to_Q (v : float64) : Q :=
  match v with
  | S754_finite s m e =>
      let n := if s then Zneg m else Zpos m in
      match e with
      | Zneg k => Qmake n (2 ^ k)%positive
      | _ => inject_Z (n * 2 ^ e)
      end
  | _ => 0%Q
  end.

(** Comparison of a float with an integer, by value; [None] on NaN. *)
Definition compare_Z (v : float64) (n : Z) : option comparison :=
  match v with
  | S754_nan => None
  | S754_infinity s => Some (if s then Lt else Gt)
  | _ => Some (Qcompare (to_Q v) (inject_Z n))
  end.

Definition gtb_Z (v : float64) (n : Z) : bool :=
  match compare_Z v n with Some Gt => true | _ => false end.
Definition geb_Z (v : float64) (n : Z) : bool :=
  match compare_Z v n with Some (Gt | Eq) => true | _ => false end.
Definition leb_Z (v : float64) (n : Z) : bool :=
  match compare_Z v n with Some (Lt | Eq) => true | _ => false end.
Definition ltb_Z (v : float64) (n : Z) : bool :=
  match compare_Z v n with Some Lt => true | _ => false end.
Definition eqb_Z (v : float64) (n : Z) : bool :=
  match compare_Z v n with Some Eq => true | _ => false end.

(** Float against float, as IEEE 754 orders them. *)
Definition ltb : float64 -> float64 -> bool := SFltb.
Definition leb : float64 -> float64 -> bool := SFleb.

(** [ndarray.max()]: the largest entry, NaN as soon as one entry is NaN. *)
Definition max2 (a b : float64) : float64 :=
  if is_nan a then a else if is_nan b then b else if ltb a b then b else a.

Definition np_max (l : list float64) : float64 :=
  match l with
  | [] => S754_nan
  | a :: l' => fold_left max2 l' a
  end.

(** The order [sort_values(ascending=False)] puts its keys in: larger
    first, NaN last. *)
Definition desc (a b : float64) : bool :=
  match SFcompare a b with
  | Some Lt => false
  | Some _ => true
  | None => is_nan b
  end.

End Float64.
Import Float64.

(* ================================================================= *)
(** ** Python strings *)

(** [str(n)] *)
Definition str (n : Z) : string := NilZero.string_of_int (Z.to_int n).

(** [int(s)], on the decimal numerals the script applies it to. *)
Definition int (s : string) : Z :=
  match NilZero.int_of_string s with
  | Some d => Z.of_int d
  | None => 0
  end.

(** The characters [str.isspace] accepts, as the one, two or three bytes of
    their UTF-8 encoding: U+0009 to U+000D, U+001C to U+0020; U+0085,
    U+00A0; U+1680, U+2000 to U+200A, U+2028, U+2029, U+202F, U+205F,
    U+3000. *)
Definition isspace1 (c : ascii) : bool :=
  let n := nat_of_ascii c in
  ((9 <=? n) && (n <=? 13) || (28 <=? n) && (n <=? 32))%nat.

Definition isspace2 (c d : ascii) : bool :=
  let n := nat_of_ascii d in
  ((nat_of_ascii c =? 194) && ((n =? 133) || (n =? 160)))%nat.

Definition isspace3 (c d e : ascii) : bool :=
  let n := nat_of_ascii e in
  match nat_of_ascii c, nat_of_ascii d with
  | 225, 154 => (n =? 128)%nat
  | 226, 128 =>
      ((128 <=? n) && (n <=? 138) || (n =? 168) || (n =? 169) || (n =? 175))%nat
  | 226, 129 => (n =? 159)%nat
  | 227, 128 => (n =? 128)%nat
  | _, _ => false
  end%nat.

(** Drops leading whitespace; with [backwards] the bytes of each character
    are met last byte first, as they are in a reversed string. *)
Fixpoint skip_spaces (backwards : bool) (s : string) : string :=
  match s with
  | String c s1 =>
      if isspace1 c then skip_spaces backwards s1
      else
        match s1 with
        | String d s2 =>
            if (if backwards then isspace2 d c else isspace2 c d)
            then skip_spaces backwards s2
            else
              match s2 with
              | String e s3 =>
                  if (if backwards then isspace3 e d c else isspace3 c d e)
                  then skip_spaces backwards s3
                  else s
              | EmptyString => s
              end
        | EmptyString => s
        end
  | EmptyString => s
  end.

Definition reverse (s : string) : string :=
  string_of_list_ascii (List.rev (list_ascii_of_string s)).

Definition lstrip (s : string) : string := skip_spaces false s.

Definition rstrip (s : string) : string :=
  reverse (skip_spaces true (reverse s)).

(** [s.strip()] *)
Definition strip (s : string) : string := rstrip (lstrip s).

(** [col in labels] *)
Definition contains (labels : list string) (col : string) : bool :=
  existsb (String.eqb col) labels.

(** The integer nearest to [10 * m * 2^e], ties to even. *)
Definition round_tenths (m : positive) (e : Z) : Z :=
  match e with
  | Zneg k =>
      let d := Zpos (2 ^ k) in
      let n := 10 * Zpos m in
      let q := n / d in
      let r := n mod d in
      match 2 * r ?= d with
      | Lt => q
      | Gt => q + 1
      | Eq => if Z.even q then q else q + 1
      end
  | _ => 10 * Zpos m * 2 ^ e
  end.

(** [f"{val:.1f}"] *)
Definition format_1f (val : float64) : string :=
  let sign (s : bool) := if s then "-" else "" in
  match val with
  | S754_nan => "nan"
  | S754_infinity s => (sign s ++ "inf")%string
  | S754_zero s => (sign s ++ "0.0")%string
  | S754_finite s m e =>
      let t := round_tenths m e in
      (sign s ++ str (t / 10) ++ "." ++ str (t mod 10))%string
  end.

(* ================================================================= *)
(** ** Data model *)

(** A cell of the [Chromosome] column. *)
Inductive label : Type :=
| LInt (n : Z)
| LStr (s : string).

(** [cell == chrom] for a string [chrom]. *)
Definition label_eqb (c : label) (chrom : string) : bool :=
  match c with
  | LStr s => String.eqb s chrom
  | LInt _ => false
  end.

(** One row of the chromosome-browser export. *)
Record Segment : Type := mkSegment {
  Chromosome : label;
  Start_Location : Z;
  End_Location : Z;
  Centimorgans : float64;
  Match_Name : string
}.

Record DataFrame : Type := mkDataFrame {
  columns : list string;
  rows : list Segment
}.

(** [df[mask]]: the rows a boolean mask keeps, header unchanged. *)
Definition select (keep : Segment -> bool) (df : DataFrame) : DataFrame :=
  mkDataFrame (columns df) (filter keep (rows df)).

Definition len (df : DataFrame) : Z := Z.of_nat (List.length (rows df)).

(** [go.Scatter3d(...)] with the arguments the script passes. *)
Record Scatter3d : Type := mkScatter3d {
  tr_x : list float64;
  tr_y : list float64;
  tr_z : list float64;
  tr_mode : string;
  tr_line : option (string * Z);        (* color, width *)
  tr_marker : option (Z * string);      (* size, color *)
  tr_name : option string;
  tr_showlegend : bool;
  tr_hoverinfo : option string;
  tr_text : option (list string)
}.

Record Layout : Type := mkLayout {
  title : string;
  xaxis_title : string;
  yaxis_title : string;
  zaxis_title : string;
  yaxis_tickvals : list Z;
  yaxis_ticktext : list string;
  camera_eye : float64 * float64 * float64;
  margin : Z * Z * Z * Z                 (* l, r, b, t *)
}.

Record Figure : Type := mkFigure {
  data : list Scatter3d;
  layout : option Layout
}.

(** [go.Figure()] *)
Definition go_Figure : Figure := mkFigure [] None.

(** [fig.add_trace(t)] *)
Definition add_trace (fig : Figure) (t : Scatter3d) : Figure :=
  mkFigure (data fig ++ [t]) (layout fig).

(* ================================================================= *)
(** ** The Streamlit page *)

Inductive element : Type :=
| StError (msg : string)
| StWarning (msg : string)
| StSuccess (msg : string)
| StWrite (msg : string)
| StMarkdown (msg : string)
| StSubheader (msg : string)
| StPlotlyChart (fig : Figure)
| StDataframe (df : DataFrame).

Definition page : Type := list element.

(** A script step: reads the page so far, returns a value and the page
    after it. *)
Definition St (A : Type) : Type := page -> A * page.

Definition ret {A : Type} (a : A) : St A := fun p => (a, p).

Definition bind {A B : Type} (m : St A) (k : A -> St B) : St B :=
  fun p => let (a, p') := m p in k a p'.

Notation "x <- m ;; k" := (bind m (fun x => k))
  (at level 61, m at next level, right associativity).
Notation "m ;; k" := (bind m (fun _ => k))
  (at level 61, right associativity).

Definition emit (e : element) : St unit := fun p => (tt, p ++ [e]).

Definition st_error (msg : string) : St unit := emit (StError msg).
Definition st_warning (msg : string) : St unit := emit (StWarning msg).
Definition st_success (msg : string) : St unit := emit (StSuccess msg).
Definition st_write (msg : string) : St unit := emit (StWrite msg).
Definition st_markdown (msg : string) : St unit := emit (StMarkdown msg).
Definition st_subheader (msg : string) : St unit := emit (StSubheader msg).
Definition st_plotly_chart (fig : Figure) : St unit := emit (StPlotlyChart fig).
Definition st_dataframe (df : DataFrame) : St unit := emit (StDataframe df).

(** The value a step returns and the elements it leaves on the page. *)
Definition value {A : Type} (m : St A) (p : page) : A := fst (m p).
Definition rendered {A : Type} (m : St A) (p : page) : page := snd (m p).

(** The figures shown on a page, in order. *)
Definition charts (p : page) : list Figure :=
  flat_map (fun e => match e with StPlotlyChart fig => [fig] | _ => [] end) p.

(* ================================================================= *)
(** ** pandas, as far as the script calls into it *)

(** What [pd.read_csv] does with an upload. *)
Inductive read_result : Type :=
| Raises (e : string)          (* the text of the exception *)
| Returns (df : DataFrame).

(** The three pandas computations the script relies on and does not
    contain.  [series_sum] is [GroupBy.sum] on one group of a float64
    column, given the group's values in row order; [sort_values] is
    [Series.sort_values(ascending=False)] on a series of totals indexed by
    match name.  How ties are ordered and how the sum is rounded is left to
    the instance. *)
Class Pandas : Type := {
  File : Type;
  read_csv : File -> read_result;
  series_sum : list float64 -> float64;
  sort_values : list (string * float64) -> list (string * float64)
}.

(** [Series.unique()]: distinct values in order of first appearance. *)
Fixpoint unique (l : list string) : list string :=
  match l with
  | [] => []
  | m :: l' => m :: filter (fun m' => negb (String.eqb m m')) (unique l')
  end.

(** [values.isin(names)] *)
Definition isin (names : list string) (m : string) : bool := contains names m.

(** [np.full_like(a, v)] *)
Definition full_like (a : list float64) (v : float64) : list float64 :=
  map (fun _ => v) a.

(** [np.linspace(start, stop, num)] for [num > 1] and [stop <> start]:
    [arange(num) * ((stop - start) / (num - 1)) + start], the last entry
    overwritten with [stop]. *)
Definition linspace (start stop : Z) (num : nat) : list float64 :=
  let step := div (of_Z (stop - start)) (of_Z (Z.of_nat num - 1)) in
  map (fun i =>
         if (i =? num - 1)%nat then of_Z stop
         else add (mul (of_Z (Z.of_nat i)) step) (of_Z start))
      (seq 0 num).

(** [np.where(a > 0)[0]] *)
Definition where_positive (a : list float64) : list nat :=
  filter (fun i => gtb_Z (nth i a zero) 0) (seq 0 (List.length a)).

(** [a[idx]] for an index array. *)
Definition take (a : list float64) (idx : list nat) : list float64 :=
  map (fun i => nth i a zero) idx.

(* ================================================================= *)
(** ** The script *)

Definition required_cols : list string :=
  ["Chromosome"; "Start Location"; "End Location"; "Centimorgans";
   "Match Name"].

(** [[str(i) for i in range(1, 23)]] *)
Definition chromosomes : list string :=
  map (fun i => str (Z.of_nat i)) (seq 1 22).

Definition max_position : Z := 250000000.

Definition x_base : list float64 := linspace 0 max_position 500.

(** The terrain bands; the script's comments name them (Iso vuori, Kukkula,
    Saari, Meri). *)
Inductive terrain : Type := Mountain | Hill | Island | Sea.

Definition classify (color_val : float64) : terrain :=
  if gtb_Z color_val 20 then Mountain
  else if gtb_Z color_val 10 then Hill
  else if gtb_Z color_val 0 then Island
  else Sea.

Definition color (t : terrain) : string :=
  match t with
  | Mountain => "firebrick"
  | Hill => "forestgreen"
  | Island => "sandybrown"
  | Sea => "aliceblue"
  end.

(** [mask = (x_base >= start) & (x_base <= end)] at one position. *)
Definition mask (row : Segment) (x : float64) : bool :=
  geb_Z x (Start_Location row) && leb_Z x (End_Location row).

(** [y_base[mask] += cm] *)
Definition raise (xs : list float64) (y_base : list float64) (row : Segment)
  : list float64 :=
  map (fun xy => if mask row (fst xy) then add (snd xy) (Centimorgans row)
                 else snd xy)
      (combine xs y_base).

(** The height profile of one chromosome: the body of the loop up to the
    first [add_trace]. *)
Definition profile (df : DataFrame) (chrom : string) : list float64 :=
  let chrom_data := select (fun r => label_eqb (Chromosome r) chrom) df in
  let y_base := full_like x_base zero in
  match rows chrom_data with
  | [] => y_base
  | _ => fold_left (raise x_base) (rows chrom_data) y_base
  end.

Definition hover (chrom : string) (val : float64) : string :=
  ("Chr " ++ chrom ++ ": " ++ format_1f val ++ " cM")%string.

Definition line_trace (chrom : string) (y_base : list float64) : Scatter3d :=
  mkScatter3d x_base (full_like x_base (of_Z (23 - int chrom))) y_base
              "lines" (Some ("black", 1)) None
              (Some ("Chr " ++ chrom)%string) false None None.

Definition marker_trace (chrom : string) (y_base : list float64)
           (subset_idx : list nat) (c : string) : Scatter3d :=
  mkScatter3d (take x_base subset_idx)
              (full_like (take x_base subset_idx) (of_Z (23 - int chrom)))
              (take y_base subset_idx)
              "markers" None (Some (2, c)) None false (Some "text")
              (Some (map (hover chrom) (take y_base subset_idx))).

(** One pass of [for i, chrom in enumerate(chromosomes)]. *)
Definition ridge (df : DataFrame) (fig : Figure) (chrom : string) : Figure :=
  let y_base := profile df chrom in
  let fig := add_trace fig (line_trace chrom y_base) in
  let color_val := np_max y_base in
  let c := color (classify color_val) in
  let subset_idx := where_positive y_base in
  if (0 <? List.length subset_idx)%nat
  then add_trace fig (marker_trace chrom y_base subset_idx c)
  else fig.

Definition scene_layout : Layout :=
  mkLayout "Genomi-Topografia: Serkkuosumat maisemana"
           "Sijainti kromosomissa (bp)"
           "Kromosomi (1-22)"
           "Yhteyden voimakkuus (cM)"
           (map Z.of_nat (seq 1 22))
           (map (fun i => ("Chr " ++ str (23 - Z.of_nat i))%string) (seq 1 22))
           (div (of_Z 3) (of_Z 2), div (of_Z 3) (of_Z 2), div (of_Z 1) (of_Z 2))
           (0, 0, 0, 50).

(** [fig.update_layout(...)] *)
Definition update_layout (fig : Figure) : Figure :=
  mkFigure (data fig) (Some scene_layout).

Section Script.

Context {pd : Pandas}.

Definition load_data (uploaded_file : File) : St (option DataFrame) :=
  match read_csv uploaded_file with
  | Returns df =>
      let df := mkDataFrame (map strip (columns df)) (rows df) in
      if negb (forallb (contains (columns df)) required_cols)
      then
        st_error "Tiedostosta puuttuu vaadittuja sarakkeita. Lataa FTDNA Chromosome Browser -CSV." ;;
        ret None
      else ret (Some df)
  | Raises e =>
      st_error ("Virhe tiedoston luvussa: " ++ e)%string ;;
      ret None
  end.

(** [df.groupby('Match Name')['Centimorgans'].sum()] *)
Definition match_sums (df : DataFrame) : list (string * float64) :=
  map (fun m =>
         (m, series_sum
               (map Centimorgans
                    (filter (fun r => String.eqb (Match_Name r) m)
                            (rows df)))))
      (unique (map Match_Name (rows df))).

(** [match_totals = ... .sort_values(ascending=False)] *)
Definition match_totals (df : DataFrame) : list (string * float64) :=
  sort_values (match_sums df).

(** [match_totals.head(5).index.tolist()] *)
Definition top_matches (df : DataFrame) : list string :=
  map fst (firstn 5 (match_totals df)).

(** The [if len(matches) > 10:] block: the rows the ridges are built
    from. *)
Definition bound_matches (df : DataFrame) : St DataFrame :=
  let matches := unique (map Match_Name (rows df)) in
  if (10 <? List.length matches)%nat
  then
    st_warning ("Tiedostossa on " ++ str (Z.of_nat (List.length matches))
                ++ " osumaa. Näytetään vain 5 suurinta selkeyden vuoksi.")%string ;;
    let matches := top_matches df in
    ret (select (fun r => isin matches (Match_Name r)) df)
  else ret df.

Definition create_topography (df : DataFrame) : St Figure :=
  let fig := go_Figure in
  df <- bound_matches df ;;
  let fig := fold_left (ridge df) chromosomes fig in
  ret (update_layout fig).

(** The flow under [if uploaded_file is not None:]; [min_cm] is the value
    of the slider, an integer from 1 to 20. *)
Definition main (uploaded_file : option File) (min_cm : Z) : St unit :=
  match uploaded_file with
  | Some file =>
      df <- load_data file ;;
      match df with
      | Some df =>
          st_success ("Ladattu " ++ str (len df) ++ " segmenttiä.")%string ;;
          let df_filtered :=
            select (fun r => geb_Z (Centimorgans r) min_cm) df in
          st_write ("Näytetään segmentit, jotka ovat suurempia kuin "
                    ++ str min_cm ++ " cM.")%string ;;
          st_subheader "DNA-Maisema" ;;
          fig <- create_topography df_filtered ;;
          st_plotly_chart fig ;;
          st_dataframe df_filtered
      | None => ret tt
      end
  | None =>
      st_markdown "---" ;;
      st_write "*Lataa tiedosto nähdäksesi visualisoinnin.*"
  end.

(** *** The same steps read off the page

    What [bound_matches] returns and writes, and the figure
    [create_topography] returns, as functions of the frame alone
    ([bound_matches_run] and [create_topography_run] below show they are
    that). *)

Definition n_matches (df : DataFrame) : nat :=
  List.length (unique (map Match_Name (rows df))).

(** The total of one match group, as [match_sums] computes it. *)
Definition total (df : DataFrame) (m : string) : float64 :=
  series_sum
    (map Centimorgans
         (filter (fun r => String.eqb (Match_Name r) m) (rows df))).

Definition truncation_notice (df : DataFrame) : element :=
  StWarning ("Tiedostossa on " ++ str (Z.of_nat (n_matches df))
             ++ " osumaa. Näytetään vain 5 suurinta selkeyden vuoksi.")%string.

Definition survivors (df : DataFrame) : DataFrame :=
  if (10 <? n_matches df)%nat
  then select (fun r => isin (top_matches df) (Match_Name r)) df
  else df.

Definition notices (df : DataFrame) : page :=
  if (10 <? n_matches df)%nat then [truncation_notice df] else [].

Definition topography (df : DataFrame) : Figure :=
  update_layout (fold_left (ridge (survivors df)) chromosomes go_Figure).

(** What [load_data] returns and writes. *)
Definition loaded (file : File) : option DataFrame :=
  match read_csv file with
  | Returns df =>
      if forallb (contains (map strip (columns df))) required_cols
      then Some (mkDataFrame (map strip (columns df)) (rows df))
      else None
  | Raises _ => None
  end.

Definition load_errors (file : File) : page :=
  match read_csv file with
  | Returns df =>
      if forallb (contains (map strip (columns df))) required_cols
      then []
      else [StError "Tiedostosta puuttuu vaadittuja sarakkeita. Lataa FTDNA Chromosome Browser -CSV."]
  | Raises e => [StError ("Virhe tiedoston luvussa: " ++ e)%string]
  end.

(** The rows that pass the slider. *)
Definition threshold (min_cm : Z) (df : DataFrame) : DataFrame :=
  select (fun r => geb_Z (Centimorgans r) min_cm) df.

(** What [main] writes for a loaded frame. *)
Definition dashboard (df : DataFrame) (min_cm : Z) : page :=
  [StSuccess ("Ladattu " ++ str (len df) ++ " segmenttiä.")%string;
   StWrite ("Näytetään segmentit, jotka ovat suurempia kuin "
            ++ str min_cm ++ " cM.")%string;
   StSubheader "DNA-Maisema"]
  ++ notices (threshold min_cm df)
  ++ [StPlotlyChart (topography (threshold min_cm df));
      StDataframe (threshold min_cm df)].

(** Everything one run of [main] writes. *)
Definition output (uploaded_file : option File) (min_cm : Z) : page :=
  match uploaded_file with
  | Some file =>
      load_errors file ++
      match loaded file with
      | Some df => dashboard df min_cm
      | None => []
      end
  | None =>
      [StMarkdown "---";
       StWrite "*Lataa tiedosto nähdäksesi visualisoinnin.*"]
  end.

End Script.

(** The traces one pass of the loop adds. *)
Definition ridge_traces (df : DataFrame) (chrom : string) : list Scatter3d :=
  let y_base := profile df chrom in
  line_trace chrom y_base ::
  (if (0 <? List.length (where_positive y_base))%nat
   then [marker_trace chrom y_base (where_positive y_base)
                      (color (classify (np_max y_base)))]
   else []).

(** Grid position number [i]. *)
Definition position (i : nat) : float64 := nth i x_base zero.

(** The rows whose strength is added at position [x] of chromosome
    [chrom]. *)
Definition covering (chrom : string) (x : float64) (r : Segment) : bool :=
  label_eqb (Chromosome r) chrom && mask r x.

(** The line traces of a figure. *)
Definition lines (fig : Figure) : list Scatter3d :=
  filter (fun t => String.eqb (tr_mode t) "lines") (data fig).

(* ================================================================= *)
(** ** A reference instance of the pandas interface

    Used to run the script on concrete frames: the upload is its own parse
    result, a group's total is the left-to-right binary64 sum, and the
    totals are sorted by a stable insertion sort. *)

Definition sum_in_order (l : list float64) : float64 := fold_left add l zero.

Fixpoint insert_desc (a : string * float64) (l : list (string * float64))
  : list (string * float64) :=
  match l with
  | [] => [a]
  | b :: l' => if desc (snd a) (snd b) then a :: l else b :: insert_desc a l'
  end.

Definition sort_desc (l : list (string * float64)) : list (string * float64) :=
  fold_right insert_desc [] l.

#[export] Instance reference_pandas : Pandas := {
  File := read_result;
  read_csv := fun file => file;
  series_sum := sum_in_order;
  sort_values := sort_desc
}.

(* ================================================================= *)
(** ** Specification vocabulary and example frames *)

(** Position [i] of an exactly even grid from 0 to [max_position]. *)
Definition even_position (i : nat) : Q :=
  Qmake (Z.of_nat i * max_position) 499.

(** Position [i] of [x_base] is within [2^-25] of the even grid. *)
Definition near_even (i : nat) : bool :=
  Qle_bool (Qabs (to_Q (position i) - even_position i)) (Qmake 1 (2 ^ 25)).

(** [x >= n] and [x <= n] the way numpy evaluates them: the integer is
    converted to binary64 and the two floats are compared. *)
Definition np_ge (x : float64) (n : Z) : bool := leb (of_Z n) x.
Definition np_le (x : float64) (n : Z) : bool := leb x (of_Z n).

Definition agree_at (x : float64) (n : Z) : bool :=
  Bool.eqb (np_ge x n) (geb_Z x n) && Bool.eqb (np_le x n) (leb_Z x n).

(** Both readings of a comparison are step functions of the integer; they
    are compared at the integers on either side of the step. *)
Definition agree_around (x : float64) : bool :=
  let n := Qfloor (to_Q x) in
  agree_at x (n - 1) && agree_at x n && agree_at x (n + 1) && agree_at x (n + 2).

(** Every addition of the left-to-right sum of [l] onto [v] is exact: the
    result is finite and its value is the sum of the two values. *)
Definition is_finite (v : float64) : bool :=
  match v with
  | S754_zero _ | S754_finite _ _ _ => true
  | _ => false
  end.

Fixpoint exact_from (v : float64) (l : list float64) : bool :=
  match l with
  | [] => true
  | c :: l' =>
      is_finite (add v c)
      && Qeq_bool (to_Q (add v c)) (to_Q v + to_Q c)
      && exact_from (add v c) l'
  end.

(** The sum of the values of [l], in the rationals. *)
Definition value_sum (l : list float64) : Q :=
  fold_right Qplus 0%Q (map to_Q l).

(** The strengths added at position [i] of chromosome [chrom], in row
    order. *)
Definition strengths_at (df : DataFrame) (chrom : string) (i : nat)
  : list float64 :=
  map Centimorgans (filter (covering chrom (position i)) (rows df)).

(** The binary64 values nearest to 5.1 and 5.2. *)
Definition cm_5_1 : float64 := S754_finite false 5742089524897382 (-50).
Definition cm_5_2 : float64 := S754_finite false 5854679515581645 (-50).

(** Three segments of three matches over the first megabase of
    chromosome 1, in two row orders. *)
Definition seg_a : Segment := mkSegment (LStr "1") 0 1000000 cm_5_1 "A".
Definition seg_b : Segment := mkSegment (LStr "1") 0 1000000 (of_Z 5) "B".
Definition seg_c : Segment := mkSegment (LStr "1") 0 1000000 cm_5_2 "C".

Definition frame_abc : DataFrame := mkDataFrame required_cols [seg_a; seg_b; seg_c].
Definition frame_cba : DataFrame := mkDataFrame required_cols [seg_c; seg_b; seg_a].

(** A profile that is [v] where [f] holds and flat elsewhere. *)
Definition two_valued (f : float64 -> bool) (v : float64) (x : float64)
  : float64 :=
  if f x then v else zero.

(** Three segments of chromosome 1 over the same interval. *)
Definition trio (s e : Z) (c1 c2 c3 : float64) (n1 n2 n3 : string)
  : DataFrame :=
  mkDataFrame required_cols
              [mkSegment (LStr "1") s e c1 n1;
               mkSegment (LStr "1") s e c2 n2;
               mkSegment (LStr "1") s e c3 n3].

(** The three of the spec's example, over an interval that lies between
    grid positions 0 and 1. *)
Definition frame_short : DataFrame :=
  trio 100 200 (of_Z 6) (of_Z 8) (of_Z 12) "A" "B" "C".

(** One segment of strength exactly 10 over the first megabase of
    chromosome 1. *)
Definition frame_ten : DataFrame :=
  mkDataFrame required_cols [mkSegment (LStr "1") 0 1000000 (of_Z 10) "A"].

(** The same with strength exactly 20. *)
Definition frame_twenty : DataFrame :=
  mkDataFrame required_cols [mkSegment (LStr "1") 0 1000000 (of_Z 20) "A"].

(** What the script expects of [sort_values(ascending=False)]: the same
    entries, every entry ahead of all entries it precedes in [desc]. *)
Definition by_total (a b : string * float64) : Prop :=
  desc (snd a) (snd b) = true.

Definition sorts_descending (pd : Pandas) : Prop :=
  forall l, Permutation (sort_values l) l /\
            StronglySorted by_total (sort_values l).

(** One segment per match over the first megabase of chromosome 1:
    match number [k] has strength [k]. *)
Definition one_each (ks : list nat) : DataFrame :=
  mkDataFrame required_cols
    (map (fun k => mkSegment (LStr "1") 0 1000000 (of_Z (Z.of_nat k))
                             ("M" ++ str (Z.of_nat k))%string)
         ks).

Definition frame_eleven : DataFrame := one_each (seq 1 11).
Definition frame_ten_matches : DataFrame := one_each (seq 1 10).

(** Uploads for the reference instance: an unreadable file, an export whose
    header lacks the match name, and a well-formed export whose labels
    carry stray blanks. *)
Definition upload_broken : read_result := Raises "No columns to parse from file".

Definition upload_no_match_name : read_result :=
  Returns (mkDataFrame ["Chromosome"; "Start Location"; "End Location";
                        "Centimorgans"]
                       (rows frame_abc)).

Definition upload_padded : read_result :=
  Returns (mkDataFrame [" Match Name"; "Chromosome "; "Start Location";
                        "End Location"; "  Centimorgans"; "Matching SNPs"]
                       (rows frame_abc)).

(** The grid indices at which a profile is positive. *)
Definition positive_indices (h : list float64) : list nat :=
  filter (fun i => gtb_Z (nth i h zero) 0) (seq 0 500).

(** The rows whose chromosome cell is one of the 22 labels. *)
Definition autosomal (r : Segment) : bool :=
  existsb (label_eqb (Chromosome r)) chromosomes.

(** Ten matches with one ordinary segment each, and an eleventh match
    whose only segment has its start after its end. *)
Definition seg_reversed : Segment :=
  mkSegment (LStr "1") 1000000 0 (of_Z 11) "M11".

Definition frame_with_reversed : DataFrame :=
  mkDataFrame required_cols (rows frame_ten_matches ++ [seg_reversed]).

(** A float whose value is at least 0: a zero, a positive number or
    plus infinity. *)
Definition non_negative (v : float64) : bool :=
  match v with
  | S754_zero _ | S754_finite false _ _ | S754_infinity false => true
  | _ => false
  end.

(** A float whose value is above 0. *)
Definition positive_value (v : float64) : bool :=
  match v with
  | S754_finite false _ _ | S754_infinity false => true
  | _ => false
  end.

(** A finite float whose exponent is not below the least exponent of
    binary64, as every valid one is. *)
Definition grounded (v : float64) : bool :=
  match v with
  | S754_finite _ _ e => (emin prec emax <=? e)%Z
  | _ => true
  end.

(** The integers just below and just above a position. *)
Definition floor (x : float64) : Z := Qfloor (to_Q x).
Definition ceiling (x : float64) : Z := Qceiling (to_Q x).

(** Every position of [l] is a number whose ceiling lies at most [gap]
    above the floor of the position before it; [prev] is the floor before
    the first. *)
Fixpoint gaps_within (gap prev : Z) (l : list float64) : bool :=
  match l with
  | [] => true
  | x :: l' =>
      is_finite x && (ceiling x <=? prev + gap)%Z
      && gaps_within gap (floor x) l'
  end.

(** A segment of chromosome 1 that spans 501,002 base pairs between grid
    positions 249 and 250. *)
Definition seg_between : Segment :=
  mkSegment (LStr "1") 124749499 125250501 (of_Z 50) "A".

(* ================================================================= *)
(** * Properties *)

(** ** Running the page monad *)

Lemma bind_run {A B : Type} (m : St A) (k : A -> St B) (p : page) :
  bind m k p = k (fst (m p)) (snd (m p)).
Proof. unfold bind. destruct (m p); reflexivity. Qed.

Lemma emit_run (e : element) (p : page) : emit e p = (tt, p ++ [e]).
Proof. reflexivity. Qed.

Lemma charts_app (p q : page) : charts (p ++ q) = charts p ++ charts q.
Proof. unfold charts. apply flat_map_app. Qed.

(** ** The grid *)

Lemma x_base_length : List.length x_base = 500%nat.
Proof. vm_compute. reflexivity. Qed.

Lemma grid_comparisons_agree : forallb agree_around x_base = true.
Proof. vm_compute. reflexivity. Qed.

Lemma full_like_length (a : list float64) (v : float64) :
  List.length (full_like a v) = List.length a.
Proof. unfold full_like. apply length_map. Qed.

Lemma full_like_nth (a : list float64) (v : float64) (i : nat) :
  (i < List.length a)%nat -> nth i (full_like a v) zero = v.
Proof.
  revert i. induction a as [|x a IH]; intros i Hi; simpl in *; [lia|].
  destruct i as [|i]; [reflexivity|]. apply IH. lia.
Qed.

(** ** Accumulating one row, then all rows *)

Lemma raise_length (xs y : list float64) (r : Segment) :
  List.length xs = List.length y ->
  List.length (raise xs y r) = List.length y.
Proof.
  intros H. unfold raise. rewrite length_map, length_combine. lia.
Qed.

Lemma raise_nth (xs y : list float64) (r : Segment) (i : nat) :
  List.length xs = List.length y -> (i < List.length y)%nat ->
  nth i (raise xs y r) zero =
  if mask r (nth i xs zero) then add (nth i y zero) (Centimorgans r)
  else nth i y zero.
Proof.
  revert y i. induction xs as [|x xs IH]; intros [|h y] i Hlen Hi;
    simpl in *; try lia.
  destruct i as [|i]; [reflexivity|].
  apply IH; lia.
Qed.

Lemma raise_all_length (xs : list float64) (rs : list Segment) :
  forall y, List.length xs = List.length y ->
            List.length (fold_left (raise xs) rs y) = List.length y.
Proof.
  induction rs as [|r rs IH]; intros y H; simpl; [reflexivity|].
  rewrite IH by (rewrite raise_length; assumption).
  apply raise_length; assumption.
Qed.

(** After all rows, the height at a position is its start value plus, in
    row order, the strength of each row whose mask holds there. *)
Lemma raise_all_nth (xs : list float64) (rs : list Segment) (i : nat) :
  forall y, List.length xs = List.length y -> (i < List.length y)%nat ->
    nth i (fold_left (raise xs) rs y) zero =
    fold_left add
      (map Centimorgans (filter (fun r => mask r (nth i xs zero)) rs))
      (nth i y zero).
Proof.
  induction rs as [|r rs IH]; intros y Hlen Hi; simpl; [reflexivity|].
  rewrite IH.
  - rewrite raise_nth by assumption.
    destruct (mask r (nth i xs zero)); reflexivity.
  - rewrite raise_length; assumption.
  - rewrite raise_length; assumption.
Qed.

Lemma profile_unfold (df : DataFrame) (chrom : string) :
  profile df chrom =
  fold_left (raise x_base)
            (filter (fun r => label_eqb (Chromosome r) chrom) (rows df))
            (full_like x_base zero).
Proof.
  unfold profile, select. cbn [rows].
  destruct (filter _ (rows df)); reflexivity.
Qed.

Lemma profile_length (df : DataFrame) (chrom : string) :
  List.length (profile df chrom) = 500%nat.
Proof.
  rewrite profile_unfold, raise_all_length;
    rewrite full_like_length; [apply x_base_length | reflexivity].
Qed.

Lemma filter_filter {A : Type} (f g : A -> bool) (l : list A) :
  filter g (filter f l) = filter (fun a => f a && g a) l.
Proof.
  induction l as [|a l IH]; simpl; [reflexivity|].
  destruct (f a); simpl; [destruct (g a)|]; rewrite IH; reflexivity.
Qed.

Lemma profile_nth (df : DataFrame) (chrom : string) (i : nat) :
  (i < 500)%nat ->
  nth i (profile df chrom) zero =
  sum_in_order
    (map Centimorgans (filter (covering chrom (position i)) (rows df))).
Proof.
  intros Hi. rewrite profile_unfold, raise_all_nth.
  - rewrite full_like_nth by (rewrite x_base_length; exact Hi).
    rewrite filter_filter. reflexivity.
  - rewrite full_like_length; reflexivity.
  - rewrite full_like_length, x_base_length; exact Hi.
Qed.

(** ** C1 *)

Lemma grid_near_even : forallb near_even (seq 0 500) = true.
Proof. vm_compute. reflexivity. Qed.

Lemma near_even_spec (i : nat) :
  near_even i = true ->
  (Qabs (to_Q (position i) - even_position i) <= Qmake 1 (2 ^ 25))%Q.
Proof. unfold near_even. intros H. apply Qle_bool_iff. exact H. Qed.

Lemma exact_from_value (l : list float64) :
  forall v, exact_from v l = true ->
            (to_Q (fold_left add l v) == to_Q v + value_sum l)%Q.
Proof.
  unfold value_sum.
  induction l as [|c l IH]; intros v H; cbn [fold_left map fold_right].
  - rewrite Qplus_0_r. reflexivity.
  - cbn [exact_from] in H. apply andb_prop in H. destruct H as [H Hl].
    apply andb_prop in H. destruct H as [_ He]. apply Qeq_bool_iff in He.
    rewrite (IH _ Hl), He. symmetry. apply Qplus_assoc.
Qed.

Lemma value_sum_perm (l l' : list float64) :
  Permutation l l' -> (value_sum l == value_sum l')%Q.
Proof.
  unfold value_sum.
  induction 1 as [|c l l' _ IH|c d l|l l' l'' _ IH1 _ IH2];
    cbn [map fold_right].
  - reflexivity.
  - rewrite IH. reflexivity.
  - rewrite !Qplus_assoc, (Qplus_comm (to_Q d)). reflexivity.
  - rewrite IH1. exact IH2.
Qed.

Lemma filter_perm {A : Type} (f : A -> bool) (l l' : list A) :
  Permutation l l' -> Permutation (filter f l) (filter f l').
Proof.
  induction 1 as [|a l l' _ IH|a b l|l l' l'' _ IH1 _ IH2]; cbn [filter].
  - apply perm_nil.
  - destruct (f a); [apply perm_skip|]; exact IH.
  - destruct (f a), (f b); try apply Permutation_refl. apply perm_swap.
  - apply (Permutation_trans IH1 IH2).
Qed.

(** C1 (as amended).  Every chromosome's profile lives on the one grid
    [x_base]: 500 binary64 positions from 0 to 250,000,000, each within
    [2^-25] of the evenly spaced position.  The height at position [i] is
    the binary64 sum, added left to right in row order from 0.0, of the
    strengths of the rows of that chromosome whose mask holds at the
    position; so it depends on the frame only through that ordered list of
    covering rows.  When the rows are reordered and every addition is exact
    in both orders, the two heights have the same value. *)
Theorem C1_profile_is_sum_in_row_order (df : DataFrame) (chrom : string) :
  List.length x_base = 500%nat /\
  position 0 = of_Z 0 /\
  position 499 = of_Z max_position /\
  (forall i, (i < 500)%nat ->
     (Qabs (to_Q (position i) - even_position i) <= Qmake 1 (2 ^ 25))%Q) /\
  List.length (profile df chrom) = 500%nat /\
  (forall i, (i < 500)%nat ->
     nth i (profile df chrom) zero = sum_in_order (strengths_at df chrom i)) /\
  (forall df' i, (i < 500)%nat ->
     strengths_at df' chrom i = strengths_at df chrom i ->
     nth i (profile df' chrom) zero = nth i (profile df chrom) zero) /\
  (forall df' i, (i < 500)%nat ->
     Permutation (rows df') (rows df) ->
     exact_from zero (strengths_at df chrom i) = true ->
     exact_from zero (strengths_at df' chrom i) = true ->
     (to_Q (nth i (profile df' chrom) zero) ==
      to_Q (nth i (profile df chrom) zero))%Q).
Proof.
  split; [apply x_base_length|].
  split; [vm_compute; reflexivity|].
  split; [vm_compute; reflexivity|].
  split.
  { intros i Hi. apply near_even_spec.
    pose proof grid_near_even as G. rewrite forallb_forall in G.
    apply G. apply in_seq. lia. }
  split; [apply profile_length|].
  split; [intros i Hi; apply profile_nth; exact Hi|].
  split.
  { intros df' i Hi Heq. rewrite !profile_nth by exact Hi.
    fold (strengths_at df chrom i) (strengths_at df' chrom i).
    rewrite Heq. reflexivity. }
  intros df' i Hi Hperm He He'. rewrite !profile_nth by exact Hi.
  fold (strengths_at df chrom i) (strengths_at df' chrom i).
  unfold sum_in_order.
  rewrite (exact_from_value _ _ He), (exact_from_value _ _ He').
  apply Qplus_inj_l, value_sum_perm.
  unfold strengths_at. apply Permutation_map, filter_perm. exact Hperm.
Qed.

Lemma C1_profile_is_sum_in_row_order_witness :
  nth 0 (profile frame_abc "1") zero =
  sum_in_order [cm_5_1; of_Z 5; cm_5_2] /\
  nth 0 (profile (mkDataFrame [] (rows frame_abc)) "1") zero =
  nth 0 (profile frame_abc "1") zero /\
  (to_Q (nth 0 (profile (trio 0 1000000 (of_Z 12) (of_Z 8) (of_Z 6)
                              "C" "B" "A") "1") zero) ==
   to_Q (nth 0 (profile (trio 0 1000000 (of_Z 6) (of_Z 8) (of_Z 12)
                              "A" "B" "C") "1") zero))%Q.
Proof.
  pose proof (C1_profile_is_sum_in_row_order frame_abc "1")
    as (_ & _ & _ & _ & _ & Hsum & Hsame & _).
  pose proof (C1_profile_is_sum_in_row_order
                (trio 0 1000000 (of_Z 6) (of_Z 8) (of_Z 12) "A" "B" "C") "1")
    as (_ & _ & _ & _ & _ & _ & _ & Hexact).
  split; [rewrite (Hsum 0%nat) by lia; vm_compute; reflexivity|].
  split; [apply Hsame; [lia | reflexivity]|].
  apply Hexact.
  - lia.
  - unfold trio. cbn [rows].
    apply Permutation_trans
      with [mkSegment (LStr "1") 0 1000000 (of_Z 8) "B";
            mkSegment (LStr "1") 0 1000000 (of_Z 12) "C";
            mkSegment (LStr "1") 0 1000000 (of_Z 6) "A"];
      [apply perm_swap|].
    apply Permutation_trans
      with [mkSegment (LStr "1") 0 1000000 (of_Z 8) "B";
            mkSegment (LStr "1") 0 1000000 (of_Z 6) "A";
            mkSegment (LStr "1") 0 1000000 (of_Z 12) "C"];
      [apply perm_skip, perm_swap | apply perm_swap].
  - vm_compute. reflexivity.
  - vm_compute. reflexivity.
Defined.

(** C1, as stated, fails: the same three surviving rows in two orders give
    two different heights at position 0 of chromosome 1
    ((5.1 + 5.0) + 5.2 against (5.2 + 5.0) + 5.1 in binary64). *)
Lemma C1_order_matters :
  Permutation (rows frame_abc) (rows frame_cba) /\
  select (fun r => geb_Z (Centimorgans r) 5) frame_abc = frame_abc /\
  select (fun r => geb_Z (Centimorgans r) 5) frame_cba = frame_cba /\
  forallb (fun r => valid (Centimorgans r)) (rows frame_abc) = true /\
  nth 0 (profile frame_abc "1") zero <> nth 0 (profile frame_cba "1") zero.
Proof.
  split.
  { unfold frame_abc, frame_cba; simpl.
    apply Permutation_trans with [seg_b; seg_a; seg_c]; [apply perm_swap|].
    apply Permutation_trans with [seg_b; seg_c; seg_a];
      [apply perm_skip, perm_swap|].
    apply perm_swap. }
  split; [vm_compute; reflexivity|].
  split; [vm_compute; reflexivity|].
  split; [vm_compute; reflexivity|].
  vm_compute. discriminate.
Qed.

(** ** Comparing a float with an integer *)

Lemma Qcompare_le_gt (q : Q) (a b : Z) :
  (q ?= inject_Z a)%Q <> Gt -> a <= b -> (q ?= inject_Z b)%Q <> Gt.
Proof.
  intros H Hab. rewrite Zle_Qle in Hab.
  apply Qle_alt. apply Qle_alt in H.
  eapply Qle_trans; [exact H | exact Hab].
Qed.

Lemma Qcompare_ge_gt (q : Q) (a b : Z) :
  (q ?= inject_Z a)%Q <> Lt -> b < a -> (q ?= inject_Z b)%Q = Gt.
Proof.
  intros H Hab. rewrite Zlt_Qlt in Hab.
  apply Qgt_alt. apply Qge_alt in H.
  eapply Qlt_le_trans; [exact Hab | exact H].
Qed.

Lemma leb_Z_gtb_Z (h : float64) (a b : Z) :
  leb_Z h a = true -> a <= b -> gtb_Z h b = false.
Proof.
  unfold leb_Z, gtb_Z, compare_Z. intros H Hab.
  destruct h as [s|[|]| |s m e]; try discriminate; try reflexivity.
  - pose proof (Qcompare_le_gt (to_Q (S754_zero s)) a b) as L.
    destruct (to_Q (S754_zero s) ?= inject_Z a)%Q; try discriminate;
      destruct (to_Q (S754_zero s) ?= inject_Z b)%Q; try reflexivity;
      exfalso; apply L; (discriminate || assumption || reflexivity).
  - pose proof (Qcompare_le_gt (to_Q (S754_finite s m e)) a b) as L.
    destruct (to_Q (S754_finite s m e) ?= inject_Z a)%Q; try discriminate;
      destruct (to_Q (S754_finite s m e) ?= inject_Z b)%Q; try reflexivity;
      exfalso; apply L; (discriminate || assumption || reflexivity).
Qed.

Lemma geb_Z_gtb_Z (h : float64) (a b : Z) :
  geb_Z h a = true -> b < a -> gtb_Z h b = true.
Proof.
  unfold geb_Z, gtb_Z, compare_Z. intros H Hab.
  destruct h as [s|[|]| |s m e]; try discriminate; try reflexivity.
  - rewrite (Qcompare_ge_gt (to_Q (S754_zero s)) a b); [reflexivity| |exact Hab].
    destruct (to_Q (S754_zero s) ?= inject_Z a)%Q; discriminate.
  - rewrite (Qcompare_ge_gt (to_Q (S754_finite s m e)) a b);
      [reflexivity| |exact Hab].
    destruct (to_Q (S754_finite s m e) ?= inject_Z a)%Q; discriminate.
Qed.

Lemma eqb_Z_leb_Z (h : float64) (n : Z) : eqb_Z h n = true -> leb_Z h n = true.
Proof.
  unfold eqb_Z, leb_Z. destruct (compare_Z h n) as [[| |]|];
    try discriminate; reflexivity.
Qed.

Lemma eqb_Z_geb_Z (h : float64) (n : Z) : eqb_Z h n = true -> geb_Z h n = true.
Proof.
  unfold eqb_Z, geb_Z. destruct (compare_Z h n) as [[| |]|];
    try discriminate; reflexivity.
Qed.

Lemma ltb_Z_geb_Z (h : float64) (n : Z) : ltb_Z h n = true -> geb_Z h n = false.
Proof.
  unfold ltb_Z, geb_Z. destruct (compare_Z h n) as [[| |]|];
    try discriminate; reflexivity.
Qed.

(** ** The bands *)

Lemma classify_mountain (h : float64) : gtb_Z h 20 = true -> classify h = Mountain.
Proof. unfold classify. intros ->. reflexivity. Qed.

Lemma classify_hill (h : float64) :
  gtb_Z h 10 = true -> leb_Z h 20 = true -> classify h = Hill.
Proof.
  unfold classify. intros H10 H20.
  rewrite (leb_Z_gtb_Z h 20 20 H20), H10 by lia. reflexivity.
Qed.

Lemma classify_island (h : float64) :
  gtb_Z h 0 = true -> leb_Z h 10 = true -> classify h = Island.
Proof.
  unfold classify. intros H0 H10.
  rewrite (leb_Z_gtb_Z h 10 20 H10), (leb_Z_gtb_Z h 10 10 H10), H0 by lia.
  reflexivity.
Qed.

Lemma classify_sea (h : float64) : eqb_Z h 0 = true -> classify h = Sea.
Proof.
  unfold classify. intros H. apply eqb_Z_leb_Z in H.
  rewrite (leb_Z_gtb_Z h 0 20 H), (leb_Z_gtb_Z h 0 10 H),
    (leb_Z_gtb_Z h 0 0 H) by lia.
  reflexivity.
Qed.

(** ** The figure, trace by trace *)

Section Figure.

Context {pd : Pandas}.

Lemma bound_matches_run (df : DataFrame) (p : page) :
  bound_matches df p = (survivors df, p ++ notices df).
Proof.
  unfold bound_matches, survivors, notices, n_matches.
  destruct (10 <? _)%nat.
  - rewrite bind_run. reflexivity.
  - unfold ret. rewrite app_nil_r. reflexivity.
Qed.

Lemma create_topography_run (df : DataFrame) (p : page) :
  create_topography df p = (topography df, p ++ notices df).
Proof.
  unfold create_topography. rewrite bind_run, bound_matches_run.
  reflexivity.
Qed.

End Figure.

Lemma ridge_data (df : DataFrame) (fig : Figure) (chrom : string) :
  data (ridge df fig chrom) = data fig ++ ridge_traces df chrom.
Proof.
  unfold ridge, ridge_traces.
  destruct (0 <? _)%nat; simpl; [rewrite <- app_assoc|]; reflexivity.
Qed.

Lemma ridges_data (df : DataFrame) (cs : list string) :
  forall fig, data (fold_left (ridge df) cs fig) =
              data fig ++ flat_map (ridge_traces df) cs.
Proof.
  induction cs as [|c cs IH]; intros fig; simpl.
  - rewrite app_nil_r. reflexivity.
  - rewrite IH, ridge_data, <- app_assoc. reflexivity.
Qed.

Lemma update_layout_data (fig : Figure) : data (update_layout fig) = data fig.
Proof. reflexivity. Qed.

Lemma topography_data {pd : Pandas} (df : DataFrame) :
  data (topography df) = flat_map (ridge_traces (survivors df)) chromosomes.
Proof.
  unfold topography. rewrite update_layout_data, ridges_data.
  apply app_nil_l.
Qed.

(** ** Profiles of frames whose rows share one mask *)

Lemma raise_map (xs : list float64) (g : float64 -> float64) (r : Segment) :
  raise xs (map g xs) r =
  map (fun x => if mask r x then add (g x) (Centimorgans r) else g x) xs.
Proof.
  unfold raise. induction xs as [|x xs IH]; simpl; [reflexivity|].
  rewrite IH. reflexivity.
Qed.

Lemma trio_profile (s e : Z) (c1 c2 c3 : float64) (n1 n2 n3 : string) :
  profile (trio s e c1 c2 c3 n1 n2 n3) "1" =
  map (fun x => if geb_Z x s && leb_Z x e
                then add (add (add zero c1) c2) c3 else zero)
      x_base.
Proof.
  rewrite profile_unfold. unfold trio, full_like.
  cbn [rows filter Chromosome label_eqb String.eqb Ascii.eqb Bool.eqb fold_left].
  rewrite !raise_map. apply map_ext. intros x. unfold mask.
  cbn [Start_Location End_Location Centimorgans].
  destruct (geb_Z x s && leb_Z x e); reflexivity.
Qed.

(** ** The maximum of a profile that takes one positive value *)

Section TwoValued.

Variable v : float64.
Hypothesis v_number : is_nan v = false.
Hypothesis v_positive : ltb zero v = true.
Hypothesis v_not_below : ltb v zero = false.
Hypothesis v_irrefl : ltb v v = false.

Variable f : float64 -> bool.

Lemma max_from_v (l : list float64) :
  fold_left max2 (map (two_valued f v) l) v = v.
Proof.
  induction l as [|x l IH]; [reflexivity|].
  cbn [map fold_left]. unfold two_valued at 2, max2.
  rewrite v_number. destruct (f x).
  - rewrite v_number, v_irrefl. exact IH.
  - cbn [is_nan zero]. rewrite v_not_below. exact IH.
Qed.

Lemma max_from_zero (l : list float64) :
  fold_left max2 (map (two_valued f v) l) zero =
  if existsb f l then v else zero.
Proof.
  induction l as [|x l IH]; [reflexivity|].
  cbn [map fold_left existsb]. unfold two_valued at 2, max2.
  cbn [is_nan zero]. destruct (f x).
  - rewrite v_number, v_positive. apply max_from_v.
  - exact IH.
Qed.

Lemma np_max_two_valued (l : list float64) :
  l <> [] ->
  np_max (map (two_valued f v) l) = if existsb f l then v else zero.
Proof.
  destruct l as [|x l]; [contradiction|]. intros _.
  cbn [np_max map existsb]. unfold two_valued at 2. destruct (f x).
  - apply max_from_v.
  - apply max_from_zero.
Qed.

End TwoValued.

Lemma x_base_nonempty : x_base <> [].
Proof.
  intros E. pose proof x_base_length as L. rewrite E in L. discriminate.
Qed.

(** ** Frames with at most ten matches are not truncated *)

Lemma filter_length_le {A : Type} (f : A -> bool) (l : list A) :
  (List.length (filter f l) <= List.length l)%nat.
Proof.
  induction l as [|a l IH]; simpl; [lia|]. destruct (f a); simpl; lia.
Qed.

Lemma unique_length_le (l : list string) :
  (List.length (unique l) <= List.length l)%nat.
Proof.
  induction l as [|m l IH]; simpl; [lia|].
  pose proof (filter_length_le (fun m' => negb (String.eqb m m')) (unique l)).
  lia.
Qed.

Lemma survivors_small {pd : Pandas} (df : DataFrame) :
  (n_matches df <= 10)%nat -> survivors df = df.
Proof.
  intros H. unfold survivors.
  destruct (Nat.ltb_spec 10 (n_matches df)); [lia | reflexivity].
Qed.

Lemma notices_small {pd : Pandas} (df : DataFrame) :
  (n_matches df <= 10)%nat -> notices df = [].
Proof.
  intros H. unfold notices.
  destruct (Nat.ltb_spec 10 (n_matches df)); [lia | reflexivity].
Qed.

(** ** C2 *)

Lemma trio_sum_26 (c1 c2 c3 : float64) :
  Permutation [c1; c2; c3] [of_Z 6; of_Z 8; of_Z 12] ->
  add (add (add zero c1) c2) c3 = of_Z 26 /\
  geb_Z c1 5 = true /\ geb_Z c2 5 = true /\ geb_Z c3 5 = true.
Proof.
  intros P.
  assert (N : NoDup [c1; c2; c3]).
  { apply (Permutation_NoDup (Permutation_sym P)).
    repeat constructor; simpl; intuition discriminate. }
  assert (H1 : In c1 [of_Z 6; of_Z 8; of_Z 12])
    by (apply (Permutation_in _ P); simpl; auto).
  assert (H2 : In c2 [of_Z 6; of_Z 8; of_Z 12])
    by (apply (Permutation_in _ P); simpl; auto).
  assert (H3 : In c3 [of_Z 6; of_Z 8; of_Z 12])
    by (apply (Permutation_in _ P); simpl; auto).
  inversion N as [|? ? N1 N']; subst.
  inversion N' as [|? ? N2 _]; subst.
  simpl in H1, H2, H3, N1, N2.
  destruct H1 as [<-|[<-|[<-|[]]]];
    destruct H2 as [<-|[<-|[<-|[]]]];
    destruct H3 as [<-|[<-|[<-|[]]]];
    try (exfalso; tauto);
    repeat split; vm_compute; reflexivity.
Qed.

(** C2 (as amended).  The terrain of a chromosome is [classify] applied to
    the maximum of its profile: above 20 mountain, above 10 up to 20 hill,
    above 0 up to 10 island, exactly 0 sea.  It is computed once per
    chromosome and only sets the colour of the marker trace; the heights of
    both traces are those of the profile.  Three rows of chromosome "1"
    over one interval with strengths 6, 8 and 12, in any order, all pass
    threshold 5 and, provided the interval contains a grid position, give
    maximum height 26 and a mountain. *)
Theorem C2_terrain_from_maximum {pd : Pandas} (df : DataFrame) (chrom : string) :
  (forall h, gtb_Z h 20 = true -> classify h = Mountain) /\
  (forall h, gtb_Z h 10 = true -> leb_Z h 20 = true -> classify h = Hill) /\
  (forall h, gtb_Z h 0 = true -> leb_Z h 10 = true -> classify h = Island) /\
  (forall h, eqb_Z h 0 = true -> classify h = Sea) /\
  (exists markers,
      ridge_traces df chrom = line_trace chrom (profile df chrom) :: markers /\
      tr_z (line_trace chrom (profile df chrom)) = profile df chrom /\
      forall t, In t markers ->
        tr_marker t =
          Some (2, color (classify (np_max (profile df chrom)))) /\
        tr_z t = take (profile df chrom) (where_positive (profile df chrom))) /\
  (forall s e c1 c2 c3 n1 n2 n3 i,
      Permutation [c1; c2; c3] [of_Z 6; of_Z 8; of_Z 12] ->
      (i < 500)%nat ->
      mask (mkSegment (LStr "1") s e c1 n1) (position i) = true ->
      select (fun r => geb_Z (Centimorgans r) 5)
             (trio s e c1 c2 c3 n1 n2 n3) = trio s e c1 c2 c3 n1 n2 n3 /\
      survivors (trio s e c1 c2 c3 n1 n2 n3) = trio s e c1 c2 c3 n1 n2 n3 /\
      np_max (profile (trio s e c1 c2 c3 n1 n2 n3) "1") = of_Z 26 /\
      classify (np_max (profile (trio s e c1 c2 c3 n1 n2 n3) "1")) = Mountain).
Proof.
  split; [exact classify_mountain|].
  split; [exact classify_hill|].
  split; [exact classify_island|].
  split; [exact classify_sea|].
  split.
  { unfold ridge_traces.
    destruct (0 <? _)%nat; eexists; (split; [reflexivity|]);
      (split; [reflexivity|]); intros t Ht.
    - destruct Ht as [<-|[]]. split; reflexivity.
    - destruct Ht. }
  intros s e c1 c2 c3 n1 n2 n3 i P Hi Hm.
  destruct (trio_sum_26 c1 c2 c3 P) as (Hsum & G1 & G2 & G3).
  assert (Hmax : np_max (profile (trio s e c1 c2 c3 n1 n2 n3) "1") = of_Z 26).
  { rewrite trio_profile, Hsum.
    change (map (fun x => if geb_Z x s && leb_Z x e then of_Z 26 else zero)
                x_base)
      with (map (two_valued (fun x => geb_Z x s && leb_Z x e) (of_Z 26)) x_base).
    rewrite (np_max_two_valued (of_Z 26) eq_refl eq_refl eq_refl eq_refl
               (fun x => geb_Z x s && leb_Z x e) x_base x_base_nonempty).
    replace (existsb (fun x => geb_Z x s && leb_Z x e) x_base) with true;
      [reflexivity|].
    symmetry. apply existsb_exists. exists (position i). split.
    - apply nth_In. rewrite x_base_length. exact Hi.
    - exact Hm. }
  split.
  { unfold select, trio. cbn [rows columns filter Centimorgans].
    rewrite G1, G2, G3. reflexivity. }
  split.
  { apply survivors_small. unfold n_matches.
    pose proof (unique_length_le
                  (map Match_Name (rows (trio s e c1 c2 c3 n1 n2 n3)))) as L.
    rewrite length_map in L.
    change (List.length (rows (trio s e c1 c2 c3 n1 n2 n3))) with 3%nat in L.
    lia. }
  split; [exact Hmax|].
  rewrite Hmax. vm_compute. reflexivity.
Qed.

Lemma C2_terrain_from_maximum_witness :
  classify (of_Z 26) = Mountain /\
  classify (of_Z 15) = Hill /\
  classify (of_Z 7) = Island /\
  classify zero = Sea /\
  np_max (profile (trio 0 1000000 (of_Z 6) (of_Z 8) (of_Z 12) "A" "B" "C") "1")
  = of_Z 26.
Proof.
  pose proof (@C2_terrain_from_maximum reference_pandas frame_abc "1")
    as (M & H & I & S & _ & E).
  split; [apply M; vm_compute; reflexivity|].
  split; [apply H; vm_compute; reflexivity|].
  split; [apply I; vm_compute; reflexivity|].
  split; [apply S; vm_compute; reflexivity|].
  apply (E 0 1000000 (of_Z 6) (of_Z 8) (of_Z 12) "A" "B" "C" 1%nat).
  - apply Permutation_refl.
  - lia.
  - vm_compute. reflexivity.
Defined.

(** C2, as stated, fails: three rows of chromosome "1" with strengths 6, 8
    and 12 over the same interval [100, 200] all pass threshold 5, yet the
    interval holds no grid position, the profile stays flat and the terrain
    is sea. *)
Lemma C2_short_segments_leave_sea :
  select (fun r => geb_Z (Centimorgans r) 5) frame_short = frame_short /\
  @survivors reference_pandas frame_short = frame_short /\
  map Centimorgans (rows frame_short) = [of_Z 6; of_Z 8; of_Z 12] /\
  profile frame_short "1" = full_like x_base zero /\
  np_max (profile frame_short "1") <> of_Z 26 /\
  classify (np_max (profile frame_short "1")) = Sea.
Proof.
  repeat split; try (vm_compute; reflexivity).
  vm_compute. discriminate.
Qed.

(** ** C3 *)

Lemma marker_color (df : DataFrame) (chrom : string) (t : Scatter3d) :
  In t (ridge_traces df chrom) -> tr_mode t = "markers" ->
  tr_marker t = Some (2, color (classify (np_max (profile df chrom)))).
Proof.
  unfold ridge_traces. intros [<-|H] Hmode; [discriminate Hmode|].
  destruct (0 <? _)%nat; [|destruct H].
  destruct H as [<-|[]]. reflexivity.
Qed.

(** C3 (as amended).  A chromosome whose maximum height is exactly 10 is an
    island, and its markers are drawn in the island colour; one whose
    maximum height is exactly 20 is a hill, not a mountain. *)
Theorem C3_boundaries (df : DataFrame) (chrom : string) :
  (eqb_Z (np_max (profile df chrom)) 10 = true ->
   classify (np_max (profile df chrom)) = Island /\
   forall t, In t (ridge_traces df chrom) -> tr_mode t = "markers" ->
             tr_marker t = Some (2, "sandybrown")) /\
  (eqb_Z (np_max (profile df chrom)) 20 = true ->
   classify (np_max (profile df chrom)) = Hill /\
   classify (np_max (profile df chrom)) <> Mountain /\
   forall t, In t (ridge_traces df chrom) -> tr_mode t = "markers" ->
             tr_marker t = Some (2, "forestgreen")).
Proof.
  split; intros H.
  - assert (C : classify (np_max (profile df chrom)) = Island).
    { apply classify_island.
      + apply (geb_Z_gtb_Z _ 10 0); [apply eqb_Z_geb_Z; exact H | lia].
      + apply eqb_Z_leb_Z; exact H. }
    split; [exact C|]. intros t Ht Hm.
    rewrite (marker_color df chrom t Ht Hm), C. reflexivity.
  - assert (C : classify (np_max (profile df chrom)) = Hill).
    { apply classify_hill.
      + apply (geb_Z_gtb_Z _ 20 10); [apply eqb_Z_geb_Z; exact H | lia].
      + apply eqb_Z_leb_Z; exact H. }
    split; [exact C|]. split; [rewrite C; discriminate|]. intros t Ht Hm.
    rewrite (marker_color df chrom t Ht Hm), C. reflexivity.
Qed.

Lemma C3_boundaries_witness :
  classify (np_max (profile frame_ten "1")) = Island /\
  classify (np_max (profile frame_twenty "1")) = Hill.
Proof.
  split.
  - apply (proj1 (C3_boundaries frame_ten "1")). vm_compute. reflexivity.
  - apply (proj2 (C3_boundaries frame_twenty "1")). vm_compute. reflexivity.
Defined.

(** C3, as stated, fails at 10: a chromosome whose maximum height is
    exactly 10 is classified island, not hill. *)
Lemma C3_ten_is_not_hill :
  np_max (profile frame_ten "1") = of_Z 10 /\
  eqb_Z (np_max (profile frame_ten "1")) 10 = true /\
  classify (np_max (profile frame_ten "1")) = Island /\
  classify (np_max (profile frame_ten "1")) <> Hill.
Proof.
  repeat split; try (vm_compute; reflexivity).
  vm_compute. discriminate.
Qed.

(** ** The descending order on totals *)

Lemma desc_total (a b : float64) : desc a b = false -> desc b a = true.
Proof.
  unfold desc, SFcompare, is_nan.
  destruct a as [sa|sa| |sa ma ea], b as [sb|sb| |sb mb eb];
    try destruct sa; try destruct sb; try discriminate; try reflexivity.
  all: change (Pos.compare_cont Eq ma mb) with (ma ?= mb)%positive;
    change (Pos.compare_cont Eq mb ma) with (mb ?= ma)%positive;
    rewrite (Z.compare_antisym ea eb), (Pos.compare_antisym ma mb);
    destruct (ea ?= eb)%Z; simpl; try discriminate; try reflexivity;
    destruct (ma ?= mb)%positive; simpl; try discriminate; reflexivity.
Qed.

Lemma desc_trans (a b c : float64) :
  desc a b = true -> desc b c = true -> desc a c = true.
Proof.
  unfold desc, SFcompare, is_nan.
  destruct a as [sa|sa| |sa ma ea], b as [sb|sb| |sb mb eb],
    c as [sc|sc| |sc mc ec];
    try destruct sa; try destruct sb; try destruct sc;
    try discriminate; try reflexivity.
  all: change (Pos.compare_cont Eq ?x ?y) with (x ?= y)%positive;
    destruct (Z.compare_spec ea eb); try discriminate;
    destruct (Z.compare_spec eb ec); try discriminate;
    destruct (Z.compare_spec ea ec); try reflexivity; try lia;
    destruct (Pos.compare_spec ma mb); try discriminate;
    destruct (Pos.compare_spec mb mc); try discriminate;
    destruct (Pos.compare_spec ma mc); try reflexivity; try lia;
    simpl; try discriminate; try reflexivity.
Qed.

(** ** The reference sort sorts *)

Lemma insert_desc_perm (a : string * float64) (l : list (string * float64)) :
  Permutation (insert_desc a l) (a :: l).
Proof.
  induction l as [|b l IH]; simpl; [apply Permutation_refl|].
  destruct (desc (snd a) (snd b)); [apply Permutation_refl|].
  apply Permutation_trans with (b :: a :: l);
    [apply perm_skip; exact IH | apply perm_swap].
Qed.

Lemma sort_desc_perm (l : list (string * float64)) : Permutation (sort_desc l) l.
Proof.
  induction l as [|a l IH]; simpl; [apply perm_nil|].
  apply Permutation_trans with (a :: sort_desc l);
    [apply insert_desc_perm | apply perm_skip; exact IH].
Qed.

Lemma insert_desc_sorted (a : string * float64) (l : list (string * float64)) :
  StronglySorted by_total l -> StronglySorted by_total (insert_desc a l).
Proof.
  induction 1 as [|b l Hl IH Hb]; simpl.
  - constructor; constructor.
  - destruct (desc (snd a) (snd b)) eqn:E.
    + constructor; [constructor; assumption|].
      constructor; [exact E|].
      apply Forall_forall. intros c Hc.
      rewrite Forall_forall in Hb.
      apply (desc_trans _ (snd b)); [exact E | apply Hb; exact Hc].
    + constructor; [exact IH|].
      apply Forall_forall. intros c Hc.
      apply (Permutation_in _ (insert_desc_perm a l)) in Hc.
      destruct Hc as [<-|Hc].
      * apply desc_total; exact E.
      * rewrite Forall_forall in Hb. apply Hb; exact Hc.
Qed.

Lemma sort_desc_sorted (l : list (string * float64)) :
  StronglySorted by_total (sort_desc l).
Proof.
  induction l as [|a l IH]; simpl; [constructor|].
  apply insert_desc_sorted; exact IH.
Qed.

Lemma reference_sorts : sorts_descending reference_pandas.
Proof. intros l. split; [apply sort_desc_perm | apply sort_desc_sorted]. Qed.

(** ** Distinct names *)

Lemma unique_In (l : list string) (x : string) : In x (unique l) <-> In x l.
Proof.
  induction l as [|m l IH]; simpl; [tauto|].
  rewrite filter_In, IH, negb_true_iff, String.eqb_neq.
  destruct (String.eqb_spec m x) as [->|N]; [tauto|].
  split; [tauto|]. intros [E|H]; [contradiction|]. right. split; assumption.
Qed.

Lemma unique_NoDup (l : list string) : NoDup (unique l).
Proof.
  induction l as [|m l IH]; simpl; constructor.
  - rewrite filter_In, negb_true_iff, String.eqb_neq. intros [_ N]. apply N.
    reflexivity.
  - apply NoDup_filter. exact IH.
Qed.

Lemma isin_In (names : list string) (m : string) :
  isin names m = true <-> In m names.
Proof.
  unfold isin, contains. rewrite existsb_exists. split.
  - intros (x & Hx & E). apply String.eqb_eq in E. subst. exact Hx.
  - intros H. exists m. split; [exact H | apply String.eqb_refl].
Qed.

(** ** Prefixes of sorted lists *)

Lemma firstn_In {A : Type} (n : nat) (l : list A) (x : A) :
  In x (firstn n l) -> In x l.
Proof.
  intros H. rewrite <- (firstn_skipn n l). apply in_or_app. left. exact H.
Qed.

Lemma firstn_NoDup {A : Type} (n : nat) (l : list A) :
  NoDup l -> NoDup (firstn n l).
Proof.
  intros H. rewrite <- (firstn_skipn n l) in H.
  apply NoDup_app_remove_r in H. exact H.
Qed.

Lemma sorted_app_cross {A : Type} (R : A -> A -> Prop) (l1 l2 : list A) :
  StronglySorted R (l1 ++ l2) ->
  forall a b, In a l1 -> In b l2 -> R a b.
Proof.
  induction l1 as [|x l1 IH]; simpl; intros S a b Ha Hb; [destruct Ha|].
  inversion S as [|? ? S' F]; subst.
  destruct Ha as [<-|Ha].
  - rewrite Forall_forall in F. apply F. apply in_or_app. right. exact Hb.
  - apply IH; assumption.
Qed.

Lemma sorted_app_left {A : Type} (R : A -> A -> Prop) (l1 l2 : list A) :
  StronglySorted R (l1 ++ l2) -> StronglySorted R l1.
Proof.
  induction l1 as [|x l1 IH]; simpl; intros S; [constructor|].
  inversion S as [|? ? S' F]; subst. constructor; [apply IH; exact S'|].
  rewrite Forall_forall in *. intros y Hy. apply F. apply in_or_app.
  left. exact Hy.
Qed.

Lemma sorted_names (g : string -> float64) (l : list (string * float64)) :
  StronglySorted by_total l ->
  (forall a, In a l -> snd a = g (fst a)) ->
  StronglySorted (fun m m' => desc (g m) (g m') = true) (map fst l).
Proof.
  induction 1 as [|a l S IH F]; intros G; simpl; constructor.
  - apply IH. intros b Hb. apply G. right. exact Hb.
  - rewrite Forall_forall in *. intros m Hm.
    apply in_map_iff in Hm. destruct Hm as (b & <- & Hb).
    rewrite <- (G a (or_introl eq_refl)), <- (G b (or_intror Hb)).
    apply F. exact Hb.
Qed.

(** ** C4 *)

Section Bounding.

Context {pd : Pandas}.
Hypothesis sorting : sorts_descending pd.

Variable df : DataFrame.

Lemma match_sums_fst :
  map fst (match_sums df) = unique (map Match_Name (rows df)).
Proof. unfold match_sums. rewrite map_map. apply map_id. Qed.

Lemma match_sums_snd (a : string * float64) :
  In a (match_sums df) -> snd a = total df (fst a).
Proof.
  unfold match_sums. intros H. apply in_map_iff in H.
  destruct H as (m & <- & _). reflexivity.
Qed.

Lemma match_totals_perm : Permutation (match_totals df) (match_sums df).
Proof. apply sorting. Qed.

Lemma match_totals_sorted : StronglySorted by_total (match_totals df).
Proof. apply sorting. Qed.

Lemma match_totals_snd (a : string * float64) :
  In a (match_totals df) -> snd a = total df (fst a).
Proof.
  intros H. apply match_sums_snd.
  apply (Permutation_in _ match_totals_perm H).
Qed.

Lemma match_totals_names :
  Permutation (map fst (match_totals df))
              (unique (map Match_Name (rows df))).
Proof.
  rewrite <- match_sums_fst. apply Permutation_map, match_totals_perm.
Qed.

Lemma top_matches_firstn :
  top_matches df = firstn 5 (map fst (match_totals df)).
Proof. unfold top_matches. symmetry. apply firstn_map. Qed.

Lemma top_matches_incl (m : string) :
  In m (top_matches df) -> In m (map Match_Name (rows df)).
Proof.
  rewrite top_matches_firstn. intros H. apply firstn_In in H.
  apply (Permutation_in _ match_totals_names) in H.
  apply unique_In. exact H.
Qed.

Lemma top_matches_NoDup : NoDup (top_matches df).
Proof.
  rewrite top_matches_firstn. apply firstn_NoDup.
  apply (Permutation_NoDup (Permutation_sym match_totals_names)).
  apply unique_NoDup.
Qed.

Lemma top_matches_length :
  (10 < n_matches df)%nat -> List.length (top_matches df) = 5%nat.
Proof.
  intros H. rewrite top_matches_firstn. apply firstn_length_le.
  rewrite (Permutation_length match_totals_names). unfold n_matches in H.
  lia.
Qed.

Lemma top_matches_sorted :
  StronglySorted (fun m m' => desc (total df m) (total df m') = true)
                 (top_matches df).
Proof.
  unfold top_matches. apply sorted_names.
  - apply (sorted_app_left _ _ (skipn 5 (match_totals df))).
    rewrite firstn_skipn. apply match_totals_sorted.
  - intros a Ha. apply match_totals_snd. apply (firstn_In _ _ _ Ha).
Qed.

Lemma top_matches_dominate (m m' : string) :
  In m (top_matches df) -> In m' (map Match_Name (rows df)) ->
  ~ In m' (top_matches df) ->
  desc (total df m) (total df m') = true.
Proof.
  intros Hm Hm' Hout.
  unfold top_matches in Hm. apply in_map_iff in Hm.
  destruct Hm as (a & <- & Ha).
  assert (Hb : In (m', total df m') (match_totals df)).
  { apply (Permutation_in _ (Permutation_sym match_totals_perm)).
    unfold match_sums. apply in_map_iff. exists m'. split; [reflexivity|].
    apply unique_In. exact Hm'. }
  rewrite <- (firstn_skipn 5) in Hb.
  apply in_app_or in Hb. destruct Hb as [Hb|Hb].
  - exfalso. apply Hout. unfold top_matches. apply in_map_iff.
    exists (m', total df m'). split; [reflexivity | exact Hb].
  - rewrite <- (match_totals_snd a (firstn_In _ _ _ Ha)).
    change (by_total a (m', total df m')).
    apply (sorted_app_cross by_total (firstn 5 (match_totals df))
                            (skipn 5 (match_totals df)));
      [rewrite firstn_skipn; apply match_totals_sorted | exact Ha | exact Hb].
Qed.

Lemma kept_names (x : string) :
  In x (unique (map Match_Name
                    (filter (fun r => isin (top_matches df) (Match_Name r))
                            (rows df)))) <->
  In x (top_matches df).
Proof.
  rewrite unique_In, in_map_iff. split.
  - intros (r & <- & Hr). apply filter_In in Hr. apply isin_In, Hr.
  - intros Hx. pose proof (top_matches_incl x Hx) as Hn.
    apply in_map_iff in Hn. destruct Hn as (r & <- & Hr).
    exists r. split; [reflexivity|]. apply filter_In.
    split; [exact Hr | apply isin_In; exact Hx].
Qed.

End Bounding.

(** C4.  With any [sort_values] that sorts: if the frame has more than ten
    distinct match names, exactly five are kept, they are distinct names of
    the frame, listed by descending total, and each of them has a total at
    least that of every match left out; the rows that remain are exactly
    the rows of those five, and the truncation warning is written to the
    page.  With ten or fewer distinct names the frame is returned as it is
    and nothing is written. *)
Theorem C4_match_group_bounding {pd : Pandas} (sorting : sorts_descending pd)
        (df : DataFrame) (p : page) :
  ((10 < n_matches df)%nat ->
   List.length (top_matches df) = 5%nat /\
   NoDup (top_matches df) /\
   (forall m, In m (top_matches df) -> In m (map Match_Name (rows df))) /\
   StronglySorted (fun m m' => desc (total df m) (total df m') = true)
                  (top_matches df) /\
   (forall m m', In m (top_matches df) -> In m' (map Match_Name (rows df)) ->
                 ~ In m' (top_matches df) ->
                 desc (total df m) (total df m') = true) /\
   rows (value (bound_matches df) p) =
     filter (fun r => isin (top_matches df) (Match_Name r)) (rows df) /\
   (forall r, In r (rows (value (bound_matches df) p)) <->
              In r (rows df) /\ In (Match_Name r) (top_matches df)) /\
   n_matches (value (bound_matches df) p) = 5%nat /\
   rendered (bound_matches df) p = p ++ [truncation_notice df]) /\
  ((n_matches df <= 10)%nat -> bound_matches df p = (df, p)).
Proof.
  unfold value, rendered. rewrite bound_matches_run. cbn [fst snd]. split.
  - intros H.
    assert (Hs : survivors df =
                 select (fun r => isin (top_matches df) (Match_Name r)) df).
    { unfold survivors. apply Nat.ltb_lt in H. rewrite H. reflexivity. }
    assert (Hn : notices df = [truncation_notice df]).
    { unfold notices. apply Nat.ltb_lt in H. rewrite H. reflexivity. }
    rewrite Hs, Hn. cbn [select rows].
    split; [apply top_matches_length; assumption|].
    split; [apply top_matches_NoDup; assumption|].
    split; [apply top_matches_incl; assumption|].
    split; [apply top_matches_sorted; assumption|].
    split; [apply top_matches_dominate; assumption|].
    split; [reflexivity|].
    split.
    { intros r. rewrite filter_In, isin_In. reflexivity. }
    split; [|reflexivity].
    unfold n_matches. cbn [rows].
    rewrite <- (top_matches_length sorting df H).
    apply Permutation_length, NoDup_Permutation.
    + apply unique_NoDup.
    + apply top_matches_NoDup; assumption.
    + intros x. apply kept_names; assumption.
  - intros H. rewrite survivors_small, notices_small by exact H.
    rewrite app_nil_r. reflexivity.
Qed.

Lemma C4_match_group_bounding_witness :
  top_matches frame_eleven = ["M11"; "M10"; "M9"; "M8"; "M7"] /\
  n_matches (value (bound_matches frame_eleven) []) = 5%nat /\
  rendered (bound_matches frame_eleven) [] =
    [StWarning "Tiedostossa on 11 osumaa. Näytetään vain 5 suurinta selkeyden vuoksi."] /\
  bound_matches frame_ten_matches [] = (frame_ten_matches, []).
Proof.
  pose proof (@C4_match_group_bounding reference_pandas reference_sorts
                frame_eleven []) as [T _].
  pose proof (@C4_match_group_bounding reference_pandas reference_sorts
                frame_ten_matches []) as [_ U].
  assert (H11 : (10 < @n_matches frame_eleven)%nat)
    by (vm_compute; lia).
  assert (H10 : (@n_matches frame_ten_matches <= 10)%nat)
    by (vm_compute; lia).
  destruct (T H11) as (_ & _ & _ & _ & _ & _ & _ & N & R).
  split; [vm_compute; reflexivity|].
  split; [exact N|].
  split; [rewrite R; vm_compute; reflexivity|].
  exact (U H10).
Defined.

(** ** What a run writes *)

Section Runs.

Context {pd : Pandas}.

Lemma load_data_run (file : File) (p : page) :
  load_data file p = (loaded file, p ++ load_errors file).
Proof.
  unfold load_data, loaded, load_errors.
  destruct (read_csv file) as [e|df]; cbn [columns].
  - rewrite bind_run. reflexivity.
  - destruct (forallb _ required_cols); cbn [negb].
    + unfold ret. rewrite app_nil_r. reflexivity.
    + rewrite bind_run. reflexivity.
Qed.

Lemma main_run (uploaded_file : option File) (min_cm : Z) (p : page) :
  main uploaded_file min_cm p = (tt, p ++ output uploaded_file min_cm).
Proof.
  unfold main, output. destruct uploaded_file as [file|].
  - rewrite bind_run, load_data_run. cbn [fst snd].
    destruct (loaded file) as [df|].
    + unfold dashboard. fold (threshold min_cm df).
      rewrite bind_run. unfold st_success at 1. rewrite emit_run. cbn [fst snd].
      rewrite bind_run. unfold st_write at 1. rewrite emit_run. cbn [fst snd].
      rewrite bind_run. unfold st_subheader at 1. rewrite emit_run.
      cbn [fst snd].
      rewrite bind_run, create_topography_run. cbn [fst snd].
      rewrite bind_run. unfold st_plotly_chart at 1. rewrite emit_run.
      cbn [fst snd]. unfold st_dataframe. rewrite emit_run.
      rewrite <- !app_assoc. reflexivity.
    + unfold ret. rewrite app_nil_r. reflexivity.
  - rewrite bind_run. unfold st_markdown, st_write. rewrite !emit_run.
    cbn [fst snd]. rewrite <- app_assoc. reflexivity.
Qed.

Lemma survivors_incl (df : DataFrame) (r : Segment) :
  In r (rows (survivors df)) -> In r (rows df).
Proof.
  unfold survivors. destruct (10 <? n_matches df)%nat; [|tauto].
  cbn [select rows]. rewrite filter_In. tauto.
Qed.

Lemma load_errors_no_chart (file : File) : charts (load_errors file) = [].
Proof.
  unfold load_errors. destruct (read_csv file) as [e|df]; [reflexivity|].
  destruct (forallb _ _); reflexivity.
Qed.

Lemma notices_no_chart (df : DataFrame) : charts (notices df) = [].
Proof. unfold notices. destruct (10 <? _)%nat; reflexivity. Qed.

Lemma dashboard_chart (df : DataFrame) (min_cm : Z) :
  charts (dashboard df min_cm) = [topography (threshold min_cm df)].
Proof.
  unfold dashboard. rewrite !charts_app, notices_no_chart. reflexivity.
Qed.

End Runs.

(** ** C5 *)

(** C5.  For every frame and every integer threshold (the slider offers 1
    to 20): the filtered frame holds exactly the rows whose strength is at
    least the threshold, so a row strictly below it is dropped and a row
    exactly at it is kept; the chart is built from the filtered frame, and
    every row that reaches the grid, being one of the rows behind each
    height, has strength at least the threshold. *)
Theorem C5_threshold_exact {pd : Pandas} (df : DataFrame) (min_cm : Z) :
  (forall r, In r (rows (threshold min_cm df)) <->
             In r (rows df) /\ geb_Z (Centimorgans r) min_cm = true) /\
  (forall r, ltb_Z (Centimorgans r) min_cm = true ->
             ~ In r (rows (threshold min_cm df))) /\
  (forall r, In r (rows df) -> eqb_Z (Centimorgans r) min_cm = true ->
             In r (rows (threshold min_cm df))) /\
  (forall file p q, value (load_data file) p = Some df ->
     charts (rendered (main (Some file) min_cm) p) =
     charts p ++ [value (create_topography (threshold min_cm df)) q]) /\
  (forall chrom i, (i < 500)%nat ->
     nth i (profile (survivors (threshold min_cm df)) chrom) zero =
     sum_in_order
       (map Centimorgans
            (filter (covering chrom (position i))
                    (rows (survivors (threshold min_cm df)))))) /\
  (forall r, In r (rows (survivors (threshold min_cm df))) ->
             In r (rows df) /\ geb_Z (Centimorgans r) min_cm = true /\
             ltb_Z (Centimorgans r) min_cm = false).
Proof.
  assert (K : forall r, In r (rows (threshold min_cm df)) <->
                        In r (rows df) /\ geb_Z (Centimorgans r) min_cm = true).
  { intros r. unfold threshold, select. cbn [rows]. apply filter_In. }
  split; [exact K|].
  split.
  { intros r Hlt Hin. apply K in Hin. destruct Hin as [_ Hge].
    rewrite (ltb_Z_geb_Z _ _ Hlt) in Hge. discriminate. }
  split.
  { intros r Hin Heq. apply K. split; [exact Hin|].
    apply eqb_Z_geb_Z. exact Heq. }
  split.
  { intros file p q Hl. unfold value, rendered in *.
    rewrite load_data_run in Hl. cbn [fst] in Hl.
    rewrite main_run, create_topography_run. cbn [fst snd].
    unfold output. rewrite Hl.
    rewrite !charts_app, load_errors_no_chart, dashboard_chart.
    reflexivity. }
  split.
  { intros chrom i Hi. apply profile_nth. exact Hi. }
  intros r Hin. apply survivors_incl, K in Hin. destruct Hin as [Hin Hge].
  split; [exact Hin|]. split; [exact Hge|].
  unfold geb_Z in Hge. unfold ltb_Z.
  destruct (compare_Z (Centimorgans r) min_cm) as [[| |]|];
    try discriminate; reflexivity.
Qed.

Lemma C5_threshold_exact_witness :
  rows (@threshold 6 frame_abc) = [] /\
  rows (@threshold 5 frame_abc) = [seg_a; seg_b; seg_c] /\
  In seg_b (rows (@threshold 5 frame_abc)) /\
  charts (rendered (@main reference_pandas (Some (Returns frame_abc)) 5) []) =
  [value (@create_topography reference_pandas (@threshold 5 frame_abc)) []].
Proof.
  pose proof (@C5_threshold_exact reference_pandas frame_abc 5)
    as (_ & _ & E & C & _).
  split; [vm_compute; reflexivity|].
  split; [vm_compute; reflexivity|].
  split.
  - apply E; [right; left; reflexivity | vm_compute; reflexivity].
  - apply (C (Returns frame_abc) [] []). vm_compute. reflexivity.
Defined.

(** ** C6 *)

Lemma required_present (labels : list string) :
  forallb (contains labels) required_cols = true <->
  (forall col, In col required_cols -> In col labels).
Proof.
  rewrite forallb_forall. split; intros H col Hc.
  - apply (isin_In labels col). apply H. exact Hc.
  - apply (isin_In labels col). apply H. exact Hc.
Qed.

Lemma required_missing (labels : list string) :
  forallb (contains labels) required_cols = false <->
  (exists col, In col required_cols /\ ~ In col labels).
Proof.
  split.
  - intros H.
    assert (E : existsb (fun col => negb (contains labels col)) required_cols
                = true).
    { revert H. generalize required_cols. intros l.
      induction l as [|c l IH]; simpl; [discriminate|].
      destruct (contains labels c); simpl; [exact IH | reflexivity]. }
    apply existsb_exists in E. destruct E as (col & Hc & Hn).
    exists col. split; [exact Hc|]. intros Hin.
    apply (isin_In labels col) in Hin. unfold isin in Hin.
    rewrite Hin in Hn. discriminate.
  - intros (col & Hc & Hn).
    destruct (forallb (contains labels) required_cols) eqn:E; [|reflexivity].
    exfalso. apply Hn. apply (required_present labels); assumption.
Qed.

(** C6.  [load_data] returns no frame exactly when [read_csv] raised or
    some required label is absent from the stripped header.  In that case
    it writes one error, and the run writes nothing else: no chart and no
    table.  Otherwise it returns the parsed rows under the stripped header
    and writes nothing. *)
Theorem C6_load_outcome {pd : Pandas} (file : File) (min_cm : Z) (p : page) :
  (value (load_data file) p = None <->
   (exists e, read_csv file = Raises e) \/
   (exists df col, read_csv file = Returns df /\ In col required_cols /\
                   ~ In col (map strip (columns df)))) /\
  (value (load_data file) p = None ->
   (exists msg, rendered (load_data file) p = p ++ [StError msg]) /\
   rendered (main (Some file) min_cm) p = rendered (load_data file) p /\
   charts (rendered (main (Some file) min_cm) p) = charts p) /\
  (forall df, read_csv file = Returns df ->
     (forall col, In col required_cols -> In col (map strip (columns df))) ->
     load_data file p =
     (Some (mkDataFrame (map strip (columns df)) (rows df)), p)).
Proof.
  unfold value, rendered. rewrite load_data_run, main_run. cbn [fst snd].
  unfold output, loaded, load_errors.
  destruct (read_csv file) as [e|df] eqn:R.
  - split; [|split].
    + split; [intros _; left; exists e; reflexivity | reflexivity].
    + intros _. split; [eexists; reflexivity|].
      split; [rewrite app_nil_r; reflexivity|].
      rewrite app_nil_r, charts_app. apply app_nil_r.
    + intros df H. discriminate H.
  - destruct (forallb (contains (map strip (columns df))) required_cols) eqn:E.
    + split; [|split].
      * split; [discriminate|].
        intros [(e & H)|(df' & col & H & Hc & Hn)]; [discriminate H|].
        exfalso. injection H as <-. apply Hn.
        apply (required_present (map strip (columns df))); assumption.
      * discriminate.
      * intros df' H _. injection H as <-. rewrite app_nil_r. reflexivity.
    + split; [|split].
      * split; [|reflexivity]. intros _. right.
        apply required_missing in E. destruct E as (col & Hc & Hn).
        exists df, col. auto.
      * intros _. split; [eexists; reflexivity|].
        split; [rewrite app_nil_r; reflexivity|].
        rewrite app_nil_r, charts_app. apply app_nil_r.
      * intros df' H Hall. exfalso. injection H as <-.
        apply (required_present (map strip (columns df))) in Hall.
        rewrite Hall in E. discriminate.
Qed.

Lemma C6_load_outcome_witness :
  value (@load_data reference_pandas upload_broken) [] = None /\
  value (@load_data reference_pandas upload_no_match_name) [] = None /\
  charts (rendered (@main reference_pandas (Some upload_no_match_name) 5) [])
  = [] /\
  @load_data reference_pandas upload_padded [] =
  (Some (mkDataFrame ["Match Name"; "Chromosome"; "Start Location";
                      "End Location"; "Centimorgans"; "Matching SNPs"]
                     (rows frame_abc)), []).
Proof.
  pose proof (@C6_load_outcome reference_pandas upload_broken 5 [])
    as ((_ & B) & _ & _).
  pose proof (@C6_load_outcome reference_pandas upload_no_match_name 5 [])
    as ((_ & M) & N & _).
  pose proof (@C6_load_outcome reference_pandas upload_padded 5 [])
    as (_ & _ & L).
  assert (Hm : value (@load_data reference_pandas upload_no_match_name) []
               = None).
  { apply M. right. eexists; exists "Match Name". split; [reflexivity|].
    split; [vm_compute; tauto|]. vm_compute. intuition discriminate. }
  split; [apply B; left; eexists; reflexivity|].
  split; [exact Hm|].
  split; [exact (proj2 (proj2 (N Hm)))|].
  apply (L _ eq_refl). intros col Hc.
  vm_compute in Hc |- *. intuition (subst; auto 10).
Defined.

(** ** C8 *)

(** C8.  What a run writes is a function of the upload and the threshold
    alone: it does not depend on what is already on the page, so a second
    run on the same upload with the same threshold writes the same
    elements again, in particular the same figure. *)
Theorem C8_pipeline_deterministic {pd : Pandas}
        (uploaded_file : option File) (min_cm : Z) :
  exists out : page,
    (forall p, main uploaded_file min_cm p = (tt, p ++ out)) /\
    (forall p, (main uploaded_file min_cm ;; main uploaded_file min_cm) p =
               (tt, (p ++ out) ++ out)) /\
    (forall p q,
        charts (rendered (main uploaded_file min_cm) p) = charts p ++ charts out /\
        charts (rendered (main uploaded_file min_cm) q) = charts q ++ charts out).
Proof.
  exists (output uploaded_file min_cm).
  split; [intros p; apply main_run|].
  split.
  - intros p. rewrite bind_run, !main_run. reflexivity.
  - intros p q. unfold rendered. rewrite !main_run. cbn [snd].
    rewrite !charts_app. split; reflexivity.
Qed.

(** ** C7 *)

Lemma chromosome_label (c : Z) :
  1 <= c <= 22 -> In (str c) chromosomes /\ int (str c) = c.
Proof.
  intros H. rewrite <- (Z2Nat.id c) by lia.
  assert (Hn : (1 <= Z.to_nat c <= 22)%nat) by lia.
  remember (Z.to_nat c) as n eqn:E. clear E H c.
  do 23 (destruct n as [|n]; [try lia; vm_compute; auto 30|]).
  lia.
Qed.

Lemma where_positive_profile (df : DataFrame) (chrom : string) :
  where_positive (profile df chrom) = positive_indices (profile df chrom).
Proof.
  unfold where_positive, positive_indices. rewrite profile_length.
  reflexivity.
Qed.

(** C7.  The figure consists of the traces of chromosomes 1 to 22 in that
    order.  Chromosome [c] contributes one line trace over the whole grid
    carrying its profile at second coordinate [23 - c]; and, when some
    height is positive, one marker trace with exactly one point per grid
    position of positive height, at that position, coordinate [23 - c] and
    height, labelled "Chr c: h cM" with the height printed to one
    decimal.  Chromosome 1 lies at 22, above all others. *)
Theorem C7_traces_per_chromosome {pd : Pandas} (df : DataFrame) :
  (forall p, data (value (create_topography df) p) =
             flat_map (ridge_traces (survivors df)) chromosomes) /\
  chromosomes = map str [1; 2; 3; 4; 5; 6; 7; 8; 9; 10; 11; 12; 13; 14; 15;
                         16; 17; 18; 19; 20; 21; 22] /\
  (forall chrom val,
      hover chrom val = ("Chr " ++ chrom ++ ": " ++ format_1f val ++ " cM")%string) /\
  hover "1" (of_Z 26) = "Chr 1: 26.0 cM" /\
  (forall c, 1 <= c <= 22 ->
     23 - c <= 22 /\
     exists line markers,
       ridge_traces (survivors df) (str c) = line :: markers /\
       tr_mode line = "lines" /\
       tr_x line = x_base /\
       tr_y line = full_like x_base (of_Z (23 - c)) /\
       tr_z line = profile (survivors df) (str c) /\
       tr_text line = None /\
       (positive_indices (profile (survivors df) (str c)) = [] ->
        markers = []) /\
       (positive_indices (profile (survivors df) (str c)) <> [] ->
        exists marker,
          markers = [marker] /\
          tr_mode marker = "markers" /\
          tr_x marker =
            map position (positive_indices (profile (survivors df) (str c))) /\
          tr_y marker =
            map (fun _ => of_Z (23 - c))
                (positive_indices (profile (survivors df) (str c))) /\
          tr_z marker =
            map (fun i => nth i (profile (survivors df) (str c)) zero)
                (positive_indices (profile (survivors df) (str c))) /\
          tr_hoverinfo marker = Some "text" /\
          tr_text marker =
            Some (map (fun i => hover (str c)
                                      (nth i (profile (survivors df) (str c))
                                           zero))
                      (positive_indices (profile (survivors df) (str c)))))).
Proof.
  split.
  { intros p. unfold value. rewrite create_topography_run.
    apply topography_data. }
  split; [vm_compute; reflexivity|].
  split; [reflexivity|].
  split; [vm_compute; reflexivity|].
  intros c Hc. split; [lia|].
  destruct (chromosome_label c Hc) as [_ Hint].
  unfold ridge_traces. rewrite where_positive_profile.
  set (h := profile (survivors df) (str c)).
  set (idx := positive_indices h).
  eexists; eexists. split; [reflexivity|].
  unfold line_trace. cbn [tr_mode tr_x tr_y tr_z tr_text]. rewrite Hint.
  repeat (split; [reflexivity|]).
  destruct idx as [|i idx'] eqn:E; cbn [List.length Nat.ltb Nat.leb].
  - split; [reflexivity|]. intros N. contradiction N. reflexivity.
  - split; [discriminate|]. intros _. eexists. split; [reflexivity|].
    unfold marker_trace.
    cbn [tr_mode tr_x tr_y tr_z tr_text tr_hoverinfo]. rewrite Hint.
    unfold take, full_like, position. rewrite !map_map.
    repeat split; reflexivity.
Qed.

Lemma C7_traces_per_chromosome_witness :
  exists line marker,
    ridge_traces (@survivors reference_pandas frame_ten) "1" = [line; marker] /\
    tr_y line = full_like x_base (of_Z 22) /\
    tr_x marker = [position 0; position 1] /\
    tr_text marker = Some ["Chr 1: 10.0 cM"; "Chr 1: 10.0 cM"].
Proof.
  destruct (@C7_traces_per_chromosome reference_pandas frame_ten)
    as (_ & _ & _ & _ & T).
  destruct (T 1 ltac:(lia))
    as (_ & line & markers & R & _ & _ & Y & _ & _ & _ & M).
  assert (P : positive_indices (profile (@survivors reference_pandas frame_ten)
                                        (str 1)) = [0%nat; 1%nat])
    by (vm_compute; reflexivity).
  destruct M as (marker & -> & _ & X & _ & _ & _ & Tx);
    [rewrite P; discriminate|].
  exists line, marker. split; [exact R|]. split; [exact Y|].
  split.
  - rewrite X, P. reflexivity.
  - rewrite Tx, P. vm_compute. reflexivity.
Defined.

(** ** C9 *)

Lemma Qcompare_le_lt (q : Q) (a b : Z) :
  (q ?= inject_Z a)%Q <> Gt -> a < b -> (q ?= inject_Z b)%Q = Lt.
Proof.
  intros H Hab. rewrite Zlt_Qlt in Hab.
  apply Qlt_alt. apply Qle_alt in H.
  eapply Qle_lt_trans; [exact H | exact Hab].
Qed.

Lemma leb_Z_geb_Z (h : float64) (a b : Z) :
  leb_Z h a = true -> a < b -> geb_Z h b = false.
Proof.
  unfold leb_Z, geb_Z, compare_Z. intros H Hab.
  destruct h as [s|[|]| |s m e]; try discriminate; try reflexivity.
  - rewrite (Qcompare_le_lt (to_Q (S754_zero s)) a b); [reflexivity| |exact Hab].
    destruct (to_Q (S754_zero s) ?= inject_Z a)%Q; discriminate.
  - rewrite (Qcompare_le_lt (to_Q (S754_finite s m e)) a b);
      [reflexivity| |exact Hab].
    destruct (to_Q (S754_finite s m e) ?= inject_Z a)%Q; discriminate.
Qed.

Lemma mask_reversed (row : Segment) (x : float64) :
  End_Location row < Start_Location row -> mask row x = false.
Proof.
  intros H. unfold mask.
  destruct (leb_Z x (End_Location row)) eqn:L.
  - rewrite (leb_Z_geb_Z x _ _ L H). reflexivity.
  - apply andb_false_r.
Qed.

Lemma raise_reversed (row : Segment) (xs y : list float64) :
  End_Location row < Start_Location row ->
  List.length xs = List.length y -> raise xs y row = y.
Proof.
  intros H. unfold raise. revert y.
  induction xs as [|x xs IH]; intros [|h y] Hlen; try discriminate;
    [reflexivity|].
  cbn [combine map fst snd]. rewrite (mask_reversed row x H).
  f_equal. apply IH. injection Hlen as Hlen. exact Hlen.
Qed.

Lemma raise_all_app (xs : list float64) (l1 l2 : list Segment)
      (y : list float64) :
  fold_left (raise xs) (l1 ++ l2) y =
  fold_left (raise xs) l2 (fold_left (raise xs) l1 y).
Proof. apply fold_left_app. Qed.

Lemma profile_without_reversed (cols : list string) (row : Segment)
      (before after : list Segment) (chrom : string) :
  End_Location row < Start_Location row ->
  profile (mkDataFrame cols (before ++ row :: after)) chrom =
  profile (mkDataFrame cols (before ++ after)) chrom.
Proof.
  intros H. rewrite !profile_unfold. cbn [rows].
  rewrite !filter_app. cbn [filter].
  destruct (label_eqb (Chromosome row) chrom); [|reflexivity].
  rewrite !raise_all_app. cbn [fold_left].
  rewrite (raise_reversed row); [reflexivity | exact H |].
  rewrite raise_all_length; rewrite full_like_length; reflexivity.
Qed.

Lemma n_matches_remove (cols : list string) (row : Segment)
      (before after : list Segment) :
  (n_matches (mkDataFrame cols (before ++ after)) <=
   n_matches (mkDataFrame cols (before ++ row :: after)))%nat.
Proof.
  unfold n_matches. cbn [rows]. apply NoDup_incl_length.
  - apply unique_NoDup.
  - intros m. rewrite !unique_In, !map_app, !in_app_iff. cbn [map In]. tauto.
Qed.

Lemma ridge_traces_ext (df df' : DataFrame) (chrom : string) :
  profile df chrom = profile df' chrom ->
  ridge_traces df chrom = ridge_traces df' chrom.
Proof. unfold ridge_traces. intros ->. reflexivity. Qed.

Lemma topography_small {pd : Pandas} (df : DataFrame) :
  (n_matches df <= 10)%nat ->
  topography df = update_layout (fold_left (ridge df) chromosomes go_Figure).
Proof. intros H. unfold topography. rewrite survivors_small by exact H. reflexivity. Qed.

Lemma figure_ext (f g : Figure) :
  data f = data g -> layout f = layout g -> f = g.
Proof. destruct f, g. cbn. intros -> ->. reflexivity. Qed.

(** C9 (as amended).  A row whose start lies after its end is selected by
    no mask: accumulating it leaves every height as it was, so each
    chromosome's profile and traces are those of the same rows without it.
    The builder returns a figure all the same, and when the frame has at
    most ten distinct match names that figure is the figure built without
    the row. *)
Theorem C9_reversed_row_is_inert {pd : Pandas} (cols : list string)
        (row : Segment) (before after : list Segment) :
  End_Location row < Start_Location row ->
  (forall x, mask row x = false) /\
  (forall y, List.length y = 500%nat -> raise x_base y row = y) /\
  (forall chrom,
      profile (mkDataFrame cols (before ++ row :: after)) chrom =
      profile (mkDataFrame cols (before ++ after)) chrom) /\
  (forall chrom,
      ridge_traces (mkDataFrame cols (before ++ row :: after)) chrom =
      ridge_traces (mkDataFrame cols (before ++ after)) chrom) /\
  (forall p, exists fig,
      value (create_topography (mkDataFrame cols (before ++ row :: after))) p
      = fig) /\
  ((n_matches (mkDataFrame cols (before ++ row :: after)) <= 10)%nat ->
   forall p q,
     value (create_topography (mkDataFrame cols (before ++ row :: after))) p =
     value (create_topography (mkDataFrame cols (before ++ after))) q).
Proof.
  intros H.
  split; [intros x; apply mask_reversed; exact H|].
  split.
  { intros y Hy. apply raise_reversed; [exact H|].
    rewrite x_base_length, Hy. reflexivity. }
  split; [intros chrom; apply profile_without_reversed; exact H|].
  split.
  { intros chrom. apply ridge_traces_ext, profile_without_reversed. exact H. }
  split; [intros p; eexists; reflexivity|].
  intros Hn p q. unfold value. rewrite !create_topography_run. cbn [fst].
  pose proof (n_matches_remove cols row before after) as Hle.
  rewrite !topography_small by lia.
  apply figure_ext; [|reflexivity].
  rewrite !update_layout_data, !ridges_data. f_equal.
  apply flat_map_ext. intros chrom.
  apply ridge_traces_ext, profile_without_reversed. exact H.
Qed.

Lemma C9_reversed_row_is_inert_witness :
  profile (mkDataFrame required_cols [seg_a; seg_reversed; seg_b]) "1" =
  profile (mkDataFrame required_cols [seg_a; seg_b]) "1" /\
  value (@create_topography reference_pandas
           (mkDataFrame required_cols [seg_a; seg_reversed; seg_b])) [] =
  value (@create_topography reference_pandas
           (mkDataFrame required_cols [seg_a; seg_b])) [].
Proof.
  assert (H : End_Location seg_reversed < Start_Location seg_reversed)
    by (vm_compute; reflexivity).
  pose proof (@C9_reversed_row_is_inert reference_pandas required_cols
                seg_reversed [seg_a] [seg_b] H) as (_ & _ & P & _ & _ & F).
  split; [apply P|].
  apply F. vm_compute. lia.
Defined.

(** C9, as stated, fails: here the reversed row is the only row of an
    eleventh match.  With it the frame has eleven matches and is cut to the
    five strongest, M11 to M7, so position 0 of chromosome 1 rises to
    10 + 9 + 8 + 7 = 34; without it all ten remaining matches stay and the
    same position rises to 55. *)
Lemma C9_removal_changes_scene :
  End_Location seg_reversed < Start_Location seg_reversed /\
  rows frame_with_reversed = rows frame_ten_matches ++ [seg_reversed] /\
  nth 0 (profile (@survivors reference_pandas frame_with_reversed) "1") zero
  = of_Z 34 /\
  nth 0 (profile (@survivors reference_pandas frame_ten_matches) "1") zero
  = of_Z 55 /\
  value (@create_topography reference_pandas frame_with_reversed) [] <>
  value (@create_topography reference_pandas frame_ten_matches) [].
Proof.
  split; [vm_compute; reflexivity|].
  split; [reflexivity|].
  split; [vm_compute; reflexivity|].
  split; [vm_compute; reflexivity|].
  intros E.
  apply (f_equal (fun fig => nth 0 (tr_z (nth 0 (data fig) (line_trace "" [])))
                                 zero)) in E.
  vm_compute in E. discriminate E.
Qed.

(** ** C10 *)

Lemma lines_of_ridges (df : DataFrame) (cs : list string) :
  filter (fun t => String.eqb (tr_mode t) "lines")
         (flat_map (ridge_traces df) cs) =
  map (fun chrom => line_trace chrom (profile df chrom)) cs.
Proof.
  induction cs as [|c cs IH]; [reflexivity|].
  cbn [flat_map map]. rewrite filter_app, IH. unfold ridge_traces at 1.
  destruct (0 <? _)%nat; reflexivity.
Qed.

Lemma profile_flat (df : DataFrame) (chrom : string) :
  (forall r, In r (rows df) -> label_eqb (Chromosome r) chrom = false) ->
  profile df chrom = full_like x_base zero.
Proof.
  intros H. rewrite profile_unfold.
  replace (filter (fun r => label_eqb (Chromosome r) chrom) (rows df))
    with (@nil Segment); [reflexivity|].
  symmetry. induction (rows df) as [|r l IH]; [reflexivity|].
  cbn [filter]. rewrite (H r (or_introl eq_refl)).
  apply IH. intros r' Hr'. apply H. right. exact Hr'.
Qed.

Lemma profile_autosomal (df : DataFrame) (chrom : string) :
  In chrom chromosomes ->
  profile (select autosomal df) chrom = profile df chrom.
Proof.
  intros Hc. rewrite !profile_unfold. unfold select. cbn [rows].
  rewrite filter_filter. f_equal. apply filter_ext. intros r.
  destruct (label_eqb (Chromosome r) chrom) eqn:E; [|apply andb_false_r].
  rewrite andb_true_r. unfold autosomal. apply existsb_exists.
  exists chrom. split; assumption.
Qed.

Lemma flat_map_ext_in {A B : Type} (f g : A -> list B) (l : list A) :
  (forall a, In a l -> f a = g a) -> flat_map f l = flat_map g l.
Proof.
  induction l as [|a l IH]; intros H; [reflexivity|].
  cbn [flat_map]. rewrite (H a (or_introl eq_refl)), IH; [reflexivity|].
  intros b Hb. apply H. right. exact Hb.
Qed.

Lemma integer_cell (n : Z) (cs : list string) :
  existsb (label_eqb (LInt n)) cs = false.
Proof. induction cs as [|c cs IH]; [reflexivity | exact IH]. Qed.

(** C10.  For every frame, the empty one included, the line traces of the
    figure are exactly the line traces of the labels "1" to "22", one
    each and in that order, each carrying the profile of its chromosome
    over the surviving rows; a chromosome none of those rows names has the
    all-zero profile; and the traces are those built from the surviving
    rows after every row whose chromosome cell is not one of the 22
    strings has been removed. *)
Theorem C10_one_line_per_chromosome {pd : Pandas} (df : DataFrame) (p : page) :
  lines (value (create_topography df) p) =
    map (fun chrom => line_trace chrom (profile (survivors df) chrom))
        chromosomes /\
  List.length (lines (value (create_topography df) p)) = 22%nat /\
  map tr_name (lines (value (create_topography df) p)) =
    map (fun c => Some ("Chr " ++ str c)%string)
        [1; 2; 3; 4; 5; 6; 7; 8; 9; 10; 11; 12; 13; 14; 15; 16; 17; 18; 19;
         20; 21; 22] /\
  (forall chrom,
      (forall r, In r (rows (survivors df)) ->
                 label_eqb (Chromosome r) chrom = false) ->
      profile (survivors df) chrom = full_like x_base zero) /\
  (forall r n, Chromosome r = LInt n -> autosomal r = false) /\
  (forall r s, Chromosome r = LStr s -> ~ In s chromosomes ->
               autosomal r = false) /\
  data (value (create_topography df) p) =
    flat_map (ridge_traces (select autosomal (survivors df))) chromosomes /\
  (rows df = [] ->
   data (value (create_topography df) p) =
     map (fun chrom => line_trace chrom (full_like x_base zero)) chromosomes).
Proof.
  unfold value. rewrite create_topography_run. cbn [fst].
  assert (L : lines (topography df) =
              map (fun chrom => line_trace chrom (profile (survivors df) chrom))
                  chromosomes).
  { unfold lines. rewrite topography_data. apply lines_of_ridges. }
  split; [exact L|].
  split; [rewrite L, length_map; reflexivity|].
  split.
  { rewrite L, map_map. unfold line_trace. cbn [tr_name].
    vm_compute. reflexivity. }
  split; [intros chrom H; apply profile_flat; exact H|].
  split.
  { intros r n H. unfold autosomal. rewrite H. apply integer_cell. }
  split.
  { intros r s H Hs. unfold autosomal. rewrite H.
    destruct (existsb (label_eqb (LStr s)) chromosomes) eqn:E; [|reflexivity].
    exfalso. apply Hs. apply existsb_exists in E.
    destruct E as (c & Hc & Heq). cbn [label_eqb] in Heq.
    apply String.eqb_eq in Heq. subst. exact Hc. }
  split.
  { rewrite topography_data. apply flat_map_ext_in. intros chrom Hc.
    apply ridge_traces_ext. symmetry. apply profile_autosomal. exact Hc. }
  intros Hrows. rewrite topography_data.
  assert (S : rows (survivors df) = []).
  { destruct (rows (survivors df)) as [|r l] eqn:E; [reflexivity|].
    pose proof (survivors_incl df r) as Hin. rewrite E, Hrows in Hin.
    destruct (Hin (or_introl eq_refl)). }
  assert (Z : forall chrom, ridge_traces (survivors df) chrom =
                            [line_trace chrom (full_like x_base zero)]).
  { intros chrom. unfold ridge_traces.
    rewrite (profile_flat (survivors df) chrom)
      by (intros r Hr; rewrite S in Hr; destruct Hr).
    replace (where_positive (full_like x_base zero)) with (@nil nat)
      by (vm_compute; reflexivity).
    reflexivity. }
  clear L. induction chromosomes as [|c cs IH]; [reflexivity|].
  cbn [flat_map map]. rewrite Z, IH. reflexivity.
Qed.

Lemma C10_one_line_per_chromosome_witness :
  data (value (@create_topography reference_pandas
                 (mkDataFrame required_cols [])) []) =
  map (fun chrom => line_trace chrom (full_like x_base zero)) chromosomes /\
  profile (@survivors reference_pandas
             (mkDataFrame required_cols
                          [mkSegment (LInt 1) 0 1000000 (of_Z 7) "A";
                           mkSegment (LStr "X") 0 1000000 (of_Z 9) "B"]))
          "1"
  = full_like x_base zero.
Proof.
  split.
  - apply (@C10_one_line_per_chromosome reference_pandas
             (mkDataFrame required_cols []) []).
    reflexivity.
  - apply (@C10_one_line_per_chromosome reference_pandas
             (mkDataFrame required_cols
                          [mkSegment (LInt 1) 0 1000000 (of_Z 7) "A";
                           mkSegment (LStr "X") 0 1000000 (of_Z 9) "B"]) []).
    intros r Hr. vm_compute in Hr.
    destruct Hr as [<-|[<-|[]]]; reflexivity.
Defined.

(* ================================================================= *)
(** * Further properties of the builder *)

(** ** Sums of non-negative strengths *)

Lemma iter_pos_keeps {A : Type} (P : A -> Prop) (f : A -> A) :
  (forall a, P a -> P (f a)) ->
  forall n a, P a -> P (iter_pos f n a).
Proof.
  intros Hf. induction n as [n IH|n IH|]; intros a Ha; cbn [iter_pos].
  - apply IH, IH, Hf, Ha.
  - apply IH, IH, Ha.
  - apply Hf, Ha.
Qed.

Lemma shr_1_nonneg (mrs : shr_record) :
  0 <= shr_m mrs -> 0 <= shr_m (shr_1 mrs).
Proof.
  destruct mrs as [m r s]. cbn [shr_m shr_1].
  destruct m as [|[p|p|]|[p|p|]]; cbn [shr_m]; lia.
Qed.

Lemma shr_fexp_nonneg (m e : Z) (l : location) :
  0 <= m -> 0 <= shr_m (fst (shr_fexp prec emax m e l)).
Proof.
  intros Hm. unfold shr_fexp, shr.
  assert (H0 : 0 <= shr_m (shr_record_of_loc m l))
    by (destruct l as [|[| |]]; exact Hm).
  destruct (fexp prec emax (Zdigits2 m + e) - e) as [|p|p]; cbn [fst];
    try exact H0.
  apply (iter_pos_keeps (fun mrs => 0 <= shr_m mrs)); [apply shr_1_nonneg|].
  exact H0.
Qed.

Lemma round_nearest_even_nonneg (m : Z) (l : location) :
  0 <= m -> 0 <= round_nearest_even m l.
Proof.
  intros Hm. destruct l as [|[| |]]; cbn [round_nearest_even]; try lia.
  destruct (Z.even m); lia.
Qed.

Lemma binary_round_aux_sign (sx : bool) (m e : Z) (l : location) :
  0 <= m ->
  match binary_round_aux prec emax sx m e l with
  | S754_zero s | S754_infinity s | S754_finite s _ _ => s = sx
  | S754_nan => False
  end.
Proof.
  intros Hm. unfold binary_round_aux.
  pose proof (shr_fexp_nonneg m e l Hm) as H1.
  destruct (shr_fexp prec emax m e l) as [mrs' e'] eqn:E1. cbn [fst] in H1.
  pose proof (shr_fexp_nonneg
                (round_nearest_even (shr_m mrs') (loc_of_shr_record mrs'))
                e' loc_Exact (round_nearest_even_nonneg _ _ H1)) as H2.
  destruct (shr_fexp prec emax
              (round_nearest_even (shr_m mrs') (loc_of_shr_record mrs'))
              e' loc_Exact) as [mrs'' e''] eqn:E2.
  cbn [fst] in H2.
  destruct (shr_m mrs'') as [|p|p]; [reflexivity| |lia].
  destruct (e'' <=? emax - prec)%Z; reflexivity.
Qed.

Lemma to_Q_positive (m : positive) (e : Z) :
  (0 < to_Q (S754_finite false m e))%Q.
Proof.
  unfold to_Q. destruct e as [|p|p].
  - change 0%Q with (inject_Z 0). rewrite <- Zlt_Qlt. lia.
  - change 0%Q with (inject_Z 0). rewrite <- Zlt_Qlt.
    pose proof (Z.pow_pos_nonneg 2 (Z.pos p)). lia.
  - unfold Qlt. cbn [Qnum Qden]. lia.
Qed.

Lemma to_Q_negative (m : positive) (e : Z) :
  (to_Q (S754_finite true m e) < 0)%Q.
Proof.
  unfold to_Q. destruct e as [|p|p].
  - change 0%Q with (inject_Z 0). rewrite <- Zlt_Qlt. lia.
  - change 0%Q with (inject_Z 0). rewrite <- Zlt_Qlt.
    pose proof (Z.pow_pos_nonneg 2 (Z.pos p)). lia.
  - unfold Qlt. cbn [Qnum Qden]. lia.
Qed.

Lemma compare_Z_zero (v : float64) :
  compare_Z v 0 =
  match v with
  | S754_nan => None
  | S754_zero _ => Some Eq
  | S754_infinity s | S754_finite s _ _ => Some (if s then Lt else Gt)
  end.
Proof.
  unfold compare_Z. destruct v as [s|s| |[|] m e]; try reflexivity.
  - f_equal. apply Qlt_alt. apply to_Q_negative.
  - f_equal. apply Qgt_alt. apply to_Q_positive.
Qed.

Lemma geb_Z_zero (v : float64) : geb_Z v 0 = non_negative v.
Proof.
  unfold geb_Z. rewrite compare_Z_zero.
  destruct v as [s|[|]| |[|] m e]; reflexivity.
Qed.

Lemma gtb_Z_zero (v : float64) : gtb_Z v 0 = positive_value v.
Proof.
  unfold gtb_Z. rewrite compare_Z_zero.
  destruct v as [s|[|]| |[|] m e]; reflexivity.
Qed.

Lemma add_non_negative (a b : float64) :
  non_negative a = true -> non_negative b = true ->
  non_negative (add a b) = true.
Proof.
  unfold add, SFadd.
  destruct a as [sa|[|]| |[|] ma ea], b as [sb|[|]| |[|] mb eb];
    try discriminate; try reflexivity; intros _ _.
  - destruct sa, sb; reflexivity.
  - cbn [cond_Zopp]. cbn [Z.add]. unfold binary_normalize, binary_round.
    destruct (shl_align _ _ _) as [mz ez].
    pose proof (binary_round_aux_sign false (Z.pos mz) ez loc_Exact
                  ltac:(lia)) as H.
    destruct (binary_round_aux prec emax false (Z.pos mz) ez loc_Exact)
      as [s|s| |s m e]; try (subst s; reflexivity). destruct H.
Qed.

Lemma raise_non_negative (xs y : list float64) (row : Segment) :
  non_negative (Centimorgans row) = true ->
  Forall (fun h => non_negative h = true) y ->
  Forall (fun h => non_negative h = true) (raise xs y row).
Proof.
  intros Hc Hy. unfold raise. revert xs.
  induction Hy as [|h y Hh Hy IH]; intros [|x xs]; cbn [combine map];
    try constructor.
  - cbn [fst snd]. destruct (mask row x); [|exact Hh].
    apply add_non_negative; assumption.
  - apply IH.
Qed.

Lemma raise_all_non_negative (xs : list float64) (rs : list Segment) :
  Forall (fun r => non_negative (Centimorgans r) = true) rs ->
  forall y, Forall (fun h => non_negative h = true) y ->
            Forall (fun h => non_negative h = true) (fold_left (raise xs) rs y).
Proof.
  induction 1 as [|r rs Hr _ IH]; intros y Hy; cbn [fold_left];
    [exact Hy|].
  apply IH, raise_non_negative; assumption.
Qed.

Lemma profile_non_negative (df : DataFrame) (chrom : string) :
  (forall r, In r (rows df) -> geb_Z (Centimorgans r) 0 = true) ->
  Forall (fun h => non_negative h = true) (profile df chrom).
Proof.
  intros H. rewrite profile_unfold. apply raise_all_non_negative.
  - apply Forall_forall. intros r Hr. apply filter_In in Hr.
    rewrite <- geb_Z_zero. apply H, Hr.
  - apply Forall_forall. intros h Hh. unfold full_like in Hh.
    apply in_map_iff in Hh. destruct Hh as (x & <- & _). reflexivity.
Qed.

(** ** The maximum of non-negative heights *)

Lemma max2_non_negative (a b : float64) :
  non_negative a = true -> non_negative b = true ->
  non_negative (max2 a b) = true /\
  positive_value (max2 a b) = positive_value a || positive_value b.
Proof.
  unfold max2, ltb, SFltb, SFcompare.
  destruct a as [sa|[|]| |[|] ma ea], b as [sb|[|]| |[|] mb eb];
    try discriminate; intros _ _; cbn [is_nan]; try (split; reflexivity).
  destruct (ea ?= eb)%Z; try (split; reflexivity).
  destruct (Pos.compare_cont Eq ma mb); split; reflexivity.
Qed.

Lemma fold_max2_non_negative (l : list float64) :
  Forall (fun h => non_negative h = true) l ->
  forall a, non_negative a = true ->
    non_negative (fold_left max2 l a) = true /\
    positive_value (fold_left max2 l a) =
    positive_value a || existsb positive_value l.
Proof.
  induction 1 as [|h l Hh _ IH]; intros a Ha; cbn [fold_left existsb].
  - rewrite orb_false_r. split; [exact Ha | reflexivity].
  - destruct (max2_non_negative a h Ha Hh) as [Hn Hp].
    destruct (IH _ Hn) as [Hn' Hp'].
    split; [exact Hn'|]. rewrite Hp', Hp, orb_assoc. reflexivity.
Qed.

Lemma np_max_non_negative (l : list float64) :
  l <> [] -> Forall (fun h => non_negative h = true) l ->
  non_negative (np_max l) = true /\
  positive_value (np_max l) = existsb positive_value l.
Proof.
  intros Hl H. destruct l as [|a l]; [contradiction|].
  inversion H as [|? ? Ha Hl']; subst. cbn [np_max existsb].
  apply fold_max2_non_negative; assumption.
Qed.

Lemma profile_nonempty (df : DataFrame) (chrom : string) :
  profile df chrom <> [].
Proof.
  intros E. pose proof (profile_length df chrom) as L.
  rewrite E in L. discriminate.
Qed.

(** X1.  When no strength is negative or NaN, no height is: every entry of
    every profile, and so every maximum, is at least 0. *)
Theorem heights_never_negative (df : DataFrame) (chrom : string) :
  (forall r, In r (rows df) -> geb_Z (Centimorgans r) 0 = true) ->
  (forall h, In h (profile df chrom) -> geb_Z h 0 = true) /\
  geb_Z (np_max (profile df chrom)) 0 = true.
Proof.
  intros H. pose proof (profile_non_negative df chrom H) as F. split.
  - intros h Hh. rewrite geb_Z_zero. rewrite Forall_forall in F.
    apply F, Hh.
  - rewrite geb_Z_zero.
    apply (np_max_non_negative _ (profile_nonempty df chrom) F).
Qed.

Lemma heights_never_negative_witness :
  geb_Z (np_max (profile frame_abc "1")) 0 = true.
Proof.
  apply (heights_never_negative frame_abc "1").
  intros r Hr. cbn in Hr.
  destruct Hr as [<-|[<-|[<-|[]]]]; vm_compute; reflexivity.
Defined.

(** ** Which chromosomes get markers, and in which colour *)

Lemma gtb_Z_geb_Z (h : float64) (n : Z) : gtb_Z h n = true -> geb_Z h n = true.
Proof.
  unfold gtb_Z, geb_Z. destruct (compare_Z h n) as [[| |]|];
    try discriminate; reflexivity.
Qed.

Lemma classify_sea_iff (h : float64) : classify h = Sea <-> gtb_Z h 0 = false.
Proof.
  unfold classify. split.
  - destruct (gtb_Z h 20); [discriminate|].
    destruct (gtb_Z h 10); [discriminate|].
    destruct (gtb_Z h 0); [discriminate | reflexivity].
  - intros H0.
    destruct (gtb_Z h 20) eqn:H20.
    { apply gtb_Z_geb_Z in H20.
      rewrite (geb_Z_gtb_Z h 20 0 H20) in H0 by lia. discriminate. }
    destruct (gtb_Z h 10) eqn:H10.
    { apply gtb_Z_geb_Z in H10.
      rewrite (geb_Z_gtb_Z h 10 0 H10) in H0 by lia. discriminate. }
    rewrite H0. reflexivity.
Qed.

Lemma where_positive_In (a : list float64) (i : nat) :
  In i (where_positive a) <->
  (i < List.length a)%nat /\ gtb_Z (nth i a zero) 0 = true.
Proof.
  unfold where_positive. rewrite filter_In, in_seq. split.
  - intros [[_ Hi] Hp]. split; assumption.
  - intros [Hi Hp]. split; [lia | exact Hp].
Qed.

Lemma where_positive_nil (a : list float64) :
  where_positive a = [] <-> existsb positive_value a = false.
Proof.
  split.
  - intros E. destruct (existsb positive_value a) eqn:X; [|reflexivity].
    apply existsb_exists in X. destruct X as (h & Hh & Hp).
    destruct (In_nth a h zero Hh) as (i & Hi & Hn).
    assert (Hin : In i (where_positive a)).
    { apply where_positive_In. rewrite Hn, gtb_Z_zero. auto. }
    rewrite E in Hin. destruct Hin.
  - intros X. destruct (where_positive a) as [|i l] eqn:E; [reflexivity|].
    assert (Hin : In i (where_positive a)) by (rewrite E; left; reflexivity).
    apply where_positive_In in Hin. destruct Hin as [Hi Hp].
    rewrite gtb_Z_zero in Hp.
    assert (Y : existsb positive_value a = true).
    { apply existsb_exists. exists (nth i a zero).
      split; [apply nth_In; exact Hi | exact Hp]. }
    rewrite Y in X. discriminate.
Qed.

Lemma color_not_sea (t : terrain) : t <> Sea -> color t <> "aliceblue".
Proof. destruct t; intros H; try discriminate. contradiction H. reflexivity. Qed.

(** X2.  When no strength is negative or NaN, a chromosome gets a marker
    trace exactly when its terrain is not sea, so the sea colour is never
    drawn: a sea chromosome contributes its line alone and all its heights
    equal 0, any other chromosome contributes its line and one marker
    trace in the colour of its terrain. *)
Theorem sea_is_never_drawn (df : DataFrame) (chrom : string) :
  (forall r, In r (rows df) -> geb_Z (Centimorgans r) 0 = true) ->
  (classify (np_max (profile df chrom)) = Sea ->
   ridge_traces df chrom = [line_trace chrom (profile df chrom)] /\
   forall h, In h (profile df chrom) -> eqb_Z h 0 = true) /\
  (classify (np_max (profile df chrom)) <> Sea ->
   where_positive (profile df chrom) <> [] /\
   ridge_traces df chrom =
   [line_trace chrom (profile df chrom);
    marker_trace chrom (profile df chrom) (where_positive (profile df chrom))
                 (color (classify (np_max (profile df chrom))))] /\
   color (classify (np_max (profile df chrom))) <> "aliceblue").
Proof.
  intros H. pose proof (profile_non_negative df chrom H) as F.
  destruct (np_max_non_negative _ (profile_nonempty df chrom) F) as [_ Hp].
  split.
  - intros S. apply classify_sea_iff in S. rewrite gtb_Z_zero, Hp in S.
    split.
    + unfold ridge_traces.
      rewrite (proj2 (where_positive_nil _) S). reflexivity.
    + intros h Hh. rewrite Forall_forall in F. specialize (F h Hh).
      assert (P : positive_value h = false).
      { destruct (positive_value h) eqn:P; [|reflexivity].
        assert (X : existsb positive_value (profile df chrom) = true)
          by (apply existsb_exists; exists h; auto).
        rewrite X in S. discriminate. }
      unfold eqb_Z. rewrite compare_Z_zero.
      destruct h as [s|[|]| |[|] m e]; try discriminate; reflexivity.
  - intros S.
    assert (N : where_positive (profile df chrom) <> []).
    { intros E. apply S. apply classify_sea_iff.
      rewrite gtb_Z_zero, Hp. apply where_positive_nil. exact E. }
    split; [exact N|]. split; [|apply color_not_sea; exact S].
    unfold ridge_traces.
    destruct (where_positive (profile df chrom)) as [|i l];
      [contradiction N; reflexivity | reflexivity].
Qed.

Lemma sea_is_never_drawn_witness :
  ridge_traces frame_abc "2" = [line_trace "2" (profile frame_abc "2")] /\
  List.length (ridge_traces frame_abc "1") = 2%nat.
Proof.
  assert (H : forall r, In r (rows frame_abc) ->
                        geb_Z (Centimorgans r) 0 = true).
  { intros r Hr. cbn in Hr.
    destruct Hr as [<-|[<-|[<-|[]]]]; vm_compute; reflexivity. }
  split.
  - apply (proj1 (sea_is_never_drawn frame_abc "2" H)).
    vm_compute. reflexivity.
  - destruct (proj2 (sea_is_never_drawn frame_abc "1" H)) as (_ & E & _).
    + vm_compute. discriminate.
    + rewrite E. reflexivity.
Defined.

(** ** The chart of a run *)

Lemma geb_Z_weaken (h : float64) (a b : Z) :
  geb_Z h a = true -> b <= a -> geb_Z h b = true.
Proof.
  intros H Hab. destruct (Z.eq_dec a b) as [<-|N]; [exact H|].
  apply gtb_Z_geb_Z. apply (geb_Z_gtb_Z h a b H). lia.
Qed.

Lemma take_In (a : list float64) (h : float64) :
  In h (take a (where_positive a)) -> In h a /\ gtb_Z h 0 = true.
Proof.
  unfold take. intros Hh. apply in_map_iff in Hh.
  destruct Hh as (i & <- & Hi). apply where_positive_In in Hi.
  destruct Hi as [Hi Hp]. split; [apply nth_In; exact Hi | exact Hp].
Qed.

(** X3.  With the slider at 0 or above (it offers 1 to 20), whatever the
    upload holds, NaN and negative strengths included: every height in
    the chart is at least 0, every height of a marker trace is above 0,
    and no marker trace is drawn in the sea colour. *)
Theorem chart_heights_are_sound {pd : Pandas} (df : DataFrame) (min_cm : Z)
        (p : page) (t : Scatter3d) :
  0 <= min_cm ->
  In t (data (value (create_topography (threshold min_cm df)) p)) ->
  (forall h, In h (tr_z t) -> geb_Z h 0 = true) /\
  (tr_mode t = "markers" -> forall h, In h (tr_z t) -> gtb_Z h 0 = true) /\
  tr_marker t <> Some (2, "aliceblue").
Proof.
  intros Hm Ht. unfold value in Ht.
  rewrite create_topography_run in Ht. cbn [fst] in Ht.
  rewrite topography_data in Ht. apply in_flat_map in Ht.
  destruct Ht as (chrom & _ & Ht).
  set (S := survivors (threshold min_cm df)) in *.
  assert (H : forall r, In r (rows S) -> geb_Z (Centimorgans r) 0 = true).
  { intros r Hr. apply survivors_incl in Hr. unfold threshold, select in Hr.
    cbn [rows] in Hr. apply filter_In in Hr.
    apply (geb_Z_weaken _ min_cm 0); [apply Hr | exact Hm]. }
  destruct (heights_never_negative S chrom H) as [Hz _].
  unfold ridge_traces in Ht. destruct Ht as [<-|Ht].
  - cbn [line_trace tr_z tr_mode tr_marker].
    split; [exact Hz|]. split; discriminate.
  - destruct (0 <? _)%nat eqn:E; [|destruct Ht].
    destruct Ht as [<-|[]]. cbn [marker_trace tr_z tr_mode tr_marker].
    split; [intros h Hh; apply Hz, (take_In _ _ Hh)|].
    split; [intros _ h Hh; apply (take_In _ _ Hh)|].
    intros C. injection C as C.
    assert (N : classify (np_max (profile S chrom)) <> Sea).
    { intros X. destruct (proj1 (sea_is_never_drawn S chrom H) X) as [R _].
      unfold ridge_traces in R. rewrite E in R.
      apply (f_equal (@List.length Scatter3d)) in R.
      cbn [List.length] in R. discriminate R. }
    exact (color_not_sea _ N C).
Qed.

Lemma chart_heights_are_sound_witness :
  tr_marker
    (nth 1 (data (value (@create_topography reference_pandas
                           (threshold 5 frame_abc)) []))
         (line_trace "" []))
  <> Some (2, "aliceblue").
Proof.
  apply (@chart_heights_are_sound reference_pandas frame_abc 5 []).
  - lia.
  - apply nth_In. unfold value. rewrite create_topography_run. cbn [fst].
    rewrite topography_data. vm_compute. lia.
Defined.

(** ** Where markers can stand *)

Lemma sum_in_order_nil : sum_in_order [] = zero.
Proof. reflexivity. Qed.

(** X4.  A marker stands only where a surviving row of that chromosome
    covers the grid position: if the height at position [i] is above 0,
    some row of the frame carries the chromosome's label and has
    [start <= x_i <= end]. *)
Theorem markers_only_where_covered (df : DataFrame) (chrom : string) (i : nat) :
  In i (where_positive (profile df chrom)) ->
  exists r, In r (rows df) /\
            Chromosome r = LStr chrom /\
            geb_Z (position i) (Start_Location r) = true /\
            leb_Z (position i) (End_Location r) = true.
Proof.
  intros Hi. apply where_positive_In in Hi. destruct Hi as [Hi Hp].
  rewrite profile_length in Hi. rewrite (profile_nth df chrom i Hi) in Hp.
  destruct (filter (covering chrom (position i)) (rows df)) as [|r l] eqn:E.
  - cbn in Hp. discriminate Hp.
  - assert (Hr : In r (filter (covering chrom (position i)) (rows df)))
      by (rewrite E; left; reflexivity).
    apply filter_In in Hr. destruct Hr as [Hr Hc].
    unfold covering, mask in Hc. apply andb_prop in Hc.
    destruct Hc as [Hl Hm]. apply andb_prop in Hm.
    exists r. split; [exact Hr|]. split; [|exact Hm].
    unfold label_eqb in Hl. destruct (Chromosome r) as [n|s];
      [discriminate|]. apply String.eqb_eq in Hl. subst. reflexivity.
Qed.

Lemma markers_only_where_covered_witness :
  exists r, In r (rows frame_abc) /\
            Chromosome r = LStr "1" /\
            geb_Z (position 1) (Start_Location r) = true /\
            leb_Z (position 1) (End_Location r) = true.
Proof.
  apply (markers_only_where_covered frame_abc "1" 1).
  apply where_positive_In. split; [rewrite profile_length; lia|].
  vm_compute. reflexivity.
Defined.

(** ** Which segments reach the grid *)

Lemma geb_Z_floor (x : float64) (n : Z) :
  is_finite x = true -> geb_Z x n = (n <=? floor x)%Z.
Proof.
  intros F. unfold geb_Z, compare_Z, floor.
  assert (E : match (to_Q x ?= inject_Z n)%Q with
              | Lt => false | _ => true end = (n <=? Qfloor (to_Q x))%Z).
  { destruct (Z.leb_spec n (Qfloor (to_Q x))) as [L|L].
    - assert (Q : (inject_Z n <= to_Q x)%Q).
      { apply Qle_trans with (inject_Z (Qfloor (to_Q x)));
          [rewrite <- Zle_Qle; exact L | apply Qfloor_le]. }
      destruct (Qcompare_spec (to_Q x) (inject_Z n)) as [C|C|C];
        [reflexivity | | reflexivity].
      exfalso. exact (Qlt_not_le _ _ C Q).
    - destruct (to_Q x ?= inject_Z n)%Q eqn:C; [| reflexivity |].
      + exfalso. apply Qeq_alt in C.
        pose proof (Qfloor_Z n) as Z. rewrite <- C in Z. lia.
      + exfalso. apply Qgt_alt in C. apply Qlt_le_weak in C.
        apply Qfloor_resp_le in C. rewrite Qfloor_Z in C. lia. }
  destruct x as [s|s| |s m e]; try discriminate F; exact E.
Qed.

Lemma leb_Z_ceiling (x : float64) (n : Z) :
  is_finite x = true -> leb_Z x n = (ceiling x <=? n)%Z.
Proof.
  intros F. unfold leb_Z, compare_Z, ceiling.
  assert (E : match (to_Q x ?= inject_Z n)%Q with
              | Gt => false | _ => true end = (Qceiling (to_Q x) <=? n)%Z).
  { destruct (Z.leb_spec (Qceiling (to_Q x)) n) as [L|L].
    - assert (Q : (to_Q x <= inject_Z n)%Q).
      { apply Qle_trans with (inject_Z (Qceiling (to_Q x)));
          [apply Qle_ceiling | rewrite <- Zle_Qle; exact L]. }
      destruct (Qcompare_spec (to_Q x) (inject_Z n)) as [C|C|C];
        [reflexivity | reflexivity |].
      exfalso. exact (Qlt_not_le _ _ C Q).
    - destruct (to_Q x ?= inject_Z n)%Q eqn:C; [| | reflexivity].
      + exfalso. apply Qeq_alt in C.
        pose proof (Qceiling_Z n) as Z. rewrite <- C in Z. lia.
      + exfalso. apply Qlt_alt in C. apply Qlt_le_weak in C.
        apply Qceiling_resp_le in C. rewrite Qceiling_Z in C. lia. }
  destruct x as [s|s| |s m e]; try discriminate F; exact E.
Qed.

Lemma scan_finds_position (gap : Z) (row : Segment) (l : list float64) :
  forall prev,
    gaps_within gap prev l = true ->
    prev < Start_Location row ->
    Start_Location row <= floor (last l zero) ->
    l <> [] ->
    Start_Location row + gap - 1 <= End_Location row ->
    existsb (mask row) l = true.
Proof.
  induction l as [|x l IH]; intros prev G Hp Hlast Hne Hlen;
    [contradiction Hne; reflexivity|].
  cbn [gaps_within] in G. apply andb_prop in G. destruct G as [G Gl].
  apply andb_prop in G. destruct G as [F C]. apply Z.leb_le in C.
  cbn [existsb]. unfold mask at 1.
  rewrite (geb_Z_floor x _ F), (leb_Z_ceiling x _ F).
  destruct (Z.leb_spec (Start_Location row) (floor x)) as [L|L].
  - replace (ceiling x <=? End_Location row)%Z with true; [reflexivity|].
    symmetry. apply Z.leb_le. lia.
  - cbn [andb orb]. destruct l as [|y l'].
    + cbn [last] in Hlast. lia.
    + apply (IH (floor x)); [exact Gl | exact L | exact Hlast
                             | discriminate | exact Hlen].
Qed.

Lemma grid_gaps :
  gaps_within 501004 (floor (hd zero x_base)) (tl x_base) = true /\
  hd zero x_base = zero /\
  floor (last (tl x_base) zero) = max_position /\
  tl x_base <> [].
Proof.
  split; [vm_compute; reflexivity|].
  split; [vm_compute; reflexivity|].
  split; [vm_compute; reflexivity|].
  intros E. pose proof x_base_length as L.
  destruct x_base as [|x l]; [discriminate L|]. cbn [tl] in E. subst l.
  discriminate L.
Qed.

Lemma existsb_position (f : float64 -> bool) :
  existsb f x_base = true ->
  exists i, (i < 500)%nat /\ f (position i) = true.
Proof.
  intros H. apply existsb_exists in H. destruct H as (x & Hx & Hf).
  destruct (In_nth x_base x zero Hx) as (i & Hi & Hn).
  exists i. rewrite x_base_length in Hi. unfold position. rewrite Hn.
  split; assumption.
Qed.

(** X5.  A segment that overlaps the span of the grid and is at least
    501,003 base pairs long covers at least one grid position, whatever
    its chromosome; the bound is sharp, a segment 501,002 base pairs long
    can fall between two positions. *)
Theorem long_segments_reach_the_grid (row : Segment) :
  Start_Location row <= max_position ->
  0 <= End_Location row ->
  501003 <= End_Location row - Start_Location row ->
  (exists i, (i < 500)%nat /\ mask row (position i) = true) /\
  End_Location seg_between - Start_Location seg_between = 501002 /\
  existsb (mask seg_between) x_base = false.
Proof.
  intros Hs He Hlen. split; [|split; vm_compute; reflexivity].
  apply existsb_position.
  destruct grid_gaps as (G & H0 & Hl & Hne).
  destruct x_base as [|x0 l] eqn:E; [contradiction Hne; reflexivity|].
  cbn [hd tl] in *. subst x0. cbn [existsb].
  destruct (Z.leb_spec (Start_Location row) 0) as [L|L].
  - replace (mask row zero) with true; [reflexivity|].
    symmetry. unfold mask.
    rewrite (geb_Z_floor zero _ eq_refl), (leb_Z_ceiling zero _ eq_refl).
    change (floor zero) with 0. change (ceiling zero) with 0.
    apply andb_true_intro. split; apply Z.leb_le; assumption.
  - rewrite (scan_finds_position 501004 row l (floor zero) G);
      [apply orb_true_r | exact L | rewrite Hl; exact Hs | exact Hne | lia].
Qed.

Lemma long_segments_reach_the_grid_witness :
  exists i, (i < 500)%nat /\
            mask (mkSegment (LStr "1") 124749499 125250502 (of_Z 50) "A")
                 (position i) = true.
Proof.
  apply (long_segments_reach_the_grid
           (mkSegment (LStr "1") 124749499 125250502 (of_Z 50) "A"));
    cbn [Start_Location End_Location]; unfold max_position; lia.
Defined.

(** ** Sums of positive strengths stay positive *)

Lemma digits2_pos_lower (p : positive) :
  2 ^ (Z.pos (digits2_pos p) - 1) <= Z.pos p.
Proof.
  induction p as [p IH|p IH|]; cbn [digits2_pos].
  - rewrite Pos2Z.inj_succ. replace (Z.succ (Z.pos (digits2_pos p)) - 1)
      with (Z.succ (Z.pos (digits2_pos p) - 1)) by lia.
    rewrite Z.pow_succ_r by lia. lia.
  - rewrite Pos2Z.inj_succ. replace (Z.succ (Z.pos (digits2_pos p)) - 1)
      with (Z.succ (Z.pos (digits2_pos p) - 1)) by lia.
    rewrite Z.pow_succ_r by lia. lia.
  - cbn. lia.
Qed.

Lemma shr_1_halves (mrs : shr_record) :
  0 <= shr_m mrs -> shr_m (shr_1 mrs) = shr_m mrs / 2.
Proof.
  intros H. rewrite <- Z.div2_div. destruct mrs as [m r s].
  cbn [shr_m shr_1] in *.
  destruct m as [|[p|p|]|p]; cbn [shr_m]; try reflexivity. lia.
Qed.

Lemma shr_iter_divides (n : positive) :
  forall mrs, 0 <= shr_m mrs ->
              shr_m (iter_pos shr_1 n mrs) = shr_m mrs / 2 ^ Z.pos n.
Proof.
  induction n as [n IH|n IH|]; intros mrs H; cbn [iter_pos].
  - assert (H1 : 0 <= shr_m (shr_1 mrs)) by (apply shr_1_nonneg, H).
    assert (H2 : 0 <= shr_m (iter_pos shr_1 n (shr_1 mrs)))
      by (apply (iter_pos_keeps (fun r => 0 <= shr_m r));
          [apply shr_1_nonneg | exact H1]).
    rewrite (IH _ H2), (IH _ H1), (shr_1_halves _ H).
    rewrite !Z.div_div by lia. f_equal.
    rewrite Pos2Z.inj_xI, <- Z.pow_add_r, <- Z.pow_succ_r by lia.
    f_equal. lia.
  - assert (H2 : 0 <= shr_m (iter_pos shr_1 n mrs))
      by (apply (iter_pos_keeps (fun r => 0 <= shr_m r));
          [apply shr_1_nonneg | exact H]).
    rewrite (IH _ H2), (IH _ H).
    rewrite !Z.div_div by lia. f_equal.
    rewrite Pos2Z.inj_xO, <- Z.pow_add_r by lia. f_equal. lia.
  - rewrite (shr_1_halves _ H). reflexivity.
Qed.

Lemma shr_record_of_loc_m (m : Z) (l : location) :
  shr_m (shr_record_of_loc m l) = m.
Proof. destruct l as [|[| |]]; reflexivity. Qed.

Lemma shr_fexp_positive (m : positive) (e : Z) (l : location) :
  emin prec emax <= e ->
  0 < shr_m (fst (shr_fexp prec emax (Z.pos m) e l)) /\
  emin prec emax <= snd (shr_fexp prec emax (Z.pos m) e l).
Proof.
  intros He. unfold shr_fexp, shr. cbn [Zdigits2].
  pose proof (digits2_pos_lower m) as D.
  set (d := Z.pos (digits2_pos m)) in *.
  assert (Hn : fexp prec emax (d + e) - e < d).
  { unfold fexp, emin, prec, emax in *. lia. }
  destruct (fexp prec emax (d + e) - e) as [|n|n] eqn:E; cbn [fst snd].
  - rewrite shr_record_of_loc_m. split; lia.
  - rewrite shr_iter_divides by (rewrite shr_record_of_loc_m; lia).
    rewrite shr_record_of_loc_m. split; [|lia].
    apply Z.lt_le_trans with 1; [lia|].
    apply Z.div_le_lower_bound; [apply Z.pow_pos_nonneg; lia|].
    rewrite Z.mul_1_r. apply Z.le_trans with (2 ^ (d - 1)); [|exact D].
    apply Z.pow_le_mono_r; lia.
  - rewrite shr_record_of_loc_m. split; lia.
Qed.

Lemma round_nearest_even_grows (m : Z) (l : location) :
  m <= round_nearest_even m l.
Proof.
  destruct l as [|[| |]]; cbn [round_nearest_even]; try lia.
  destruct (Z.even m); lia.
Qed.

Lemma binary_round_aux_positive (m : positive) (e : Z) (l : location) :
  emin prec emax <= e ->
  positive_value (binary_round_aux prec emax false (Z.pos m) e l) = true /\
  grounded (binary_round_aux prec emax false (Z.pos m) e l) = true.
Proof.
  intros He. unfold binary_round_aux.
  destruct (shr_fexp_positive m e l He) as [H1 H1e].
  destruct (shr_fexp prec emax (Z.pos m) e l) as [mrs' e'].
  cbn [fst snd] in H1, H1e.
  pose proof (round_nearest_even_grows (shr_m mrs') (loc_of_shr_record mrs'))
    as R.
  destruct (round_nearest_even (shr_m mrs') (loc_of_shr_record mrs'))
    as [|m2|m2] eqn:E2; try lia.
  destruct (shr_fexp_positive m2 e' loc_Exact H1e) as [H2 H2e].
  destruct (shr_fexp prec emax (Z.pos m2) e' loc_Exact) as [mrs'' e''].
  cbn [fst snd] in H2, H2e.
  destruct (shr_m mrs'') as [|m3|m3]; try lia.
  destruct (e'' <=? emax - prec)%Z; split; try reflexivity.
  cbn [grounded]. apply Z.leb_le. exact H2e.
Qed.

Lemma binary_round_positive (m : positive) (e : Z) :
  emin prec emax <= e ->
  positive_value (binary_round prec emax false m e) = true /\
  grounded (binary_round prec emax false m e) = true.
Proof.
  intros He. unfold binary_round.
  destruct (shl_align m e (fexp prec emax (Z.pos (digits2_pos m) + e)))
    as [mz ez] eqn:E.
  apply binary_round_aux_positive.
  unfold shl_align in E.
  destruct (fexp prec emax (Z.pos (digits2_pos m) + e) - e) eqn:F;
    injection E as _ <-; try exact He.
  unfold fexp. lia.
Qed.

Lemma add_positive (a b : float64) :
  non_negative a = true -> grounded a = true ->
  positive_value b = true -> grounded b = true ->
  positive_value (add a b) = true /\ grounded (add a b) = true.
Proof.
  unfold add, SFadd.
  destruct a as [sa|[|]| |[|] ma ea], b as [sb|[|]| |[|] mb eb];
    try discriminate; intros _ Ga _ Gb; try (split; [reflexivity|assumption]);
    try (split; reflexivity).
  cbn [grounded] in Ga, Gb. apply Z.leb_le in Ga. apply Z.leb_le in Gb.
  cbn [cond_Zopp]. cbn [Z.add]. unfold binary_normalize.
  apply binary_round_positive. lia.
Qed.

Lemma valid_grounded (v : float64) : valid v = true -> grounded v = true.
Proof.
  unfold valid, valid_binary, grounded. destruct v as [s|s| |s m e];
    try reflexivity.
  unfold bounded, canonical_mantissa. intros H. apply andb_prop in H.
  destruct H as [H _]. apply Z.eqb_eq in H. apply Z.leb_le.
  unfold fexp in H. lia.
Qed.

Lemma sum_positive (l : list float64) :
  Forall (fun c => positive_value c = true /\ grounded c = true) l ->
  forall a, non_negative a = true -> grounded a = true ->
            l <> [] ->
            positive_value (fold_left add l a) = true.
Proof.
  induction 1 as [|c l [Pc Gc] Hl IH]; intros a Na Ga Hne;
    [contradiction Hne; reflexivity|].
  cbn [fold_left]. destruct (add_positive a c Na Ga Pc Gc) as [P G].
  destruct l as [|c' l']; [exact P|].
  apply IH; [|exact G|discriminate].
  destruct (add a c) as [s|[|]| |[|] m e]; try discriminate P; reflexivity.
Qed.

Lemma covered_height_positive (df : DataFrame) (chrom : string) (i : nat) :
  (forall r, In r (rows df) ->
             gtb_Z (Centimorgans r) 0 = true /\ valid (Centimorgans r) = true) ->
  (i < 500)%nat ->
  (exists r, In r (rows df) /\ covering chrom (position i) r = true) ->
  gtb_Z (nth i (profile df chrom) zero) 0 = true.
Proof.
  intros H Hi (r & Hr & Hc).
  rewrite (profile_nth df chrom i Hi), gtb_Z_zero. unfold sum_in_order.
  apply sum_positive; try reflexivity.
  - apply Forall_forall. intros c Hin. apply in_map_iff in Hin.
    destruct Hin as (r' & <- & Hr'). apply filter_In in Hr'.
    destruct (H r' (proj1 Hr')) as [P V].
    split; [rewrite <- gtb_Z_zero; exact P | apply valid_grounded; exact V].
  - intros E. apply map_eq_nil in E.
    assert (Hin : In r (filter (covering chrom (position i)) (rows df)))
      by (apply filter_In; split; assumption).
    rewrite E in Hin. destruct Hin.
Qed.

(** X6.  When every strength is a valid binary64 value above 0, the
    height of a chromosome at a grid position is above 0, and a marker
    stands there, exactly when at least one row of that chromosome covers
    the position. *)
Theorem markers_stand_where_covered (df : DataFrame) (chrom : string)
        (i : nat) :
  (forall r, In r (rows df) ->
             gtb_Z (Centimorgans r) 0 = true /\ valid (Centimorgans r) = true) ->
  (i < 500)%nat ->
  (In i (where_positive (profile df chrom)) <->
   exists r, In r (rows df) /\ covering chrom (position i) r = true).
Proof.
  intros H Hi. split.
  - intros Hin. apply where_positive_In in Hin. destruct Hin as [_ Hp].
    rewrite (profile_nth df chrom i Hi) in Hp.
    destruct (filter (covering chrom (position i)) (rows df)) as [|r l] eqn:E;
      [cbn in Hp; discriminate Hp|].
    assert (Hr : In r (filter (covering chrom (position i)) (rows df)))
      by (rewrite E; left; reflexivity).
    apply filter_In in Hr. exists r. exact Hr.
  - intros Hc. apply where_positive_In. rewrite profile_length.
    split; [exact Hi | apply covered_height_positive; assumption].
Qed.

Lemma markers_stand_where_covered_witness :
  In 1%nat (where_positive (profile frame_abc "1")) /\
  ~ In 2%nat (where_positive (profile frame_abc "1")).
Proof.
  assert (H : forall r, In r (rows frame_abc) ->
                        gtb_Z (Centimorgans r) 0 = true /\
                        valid (Centimorgans r) = true).
  { intros r Hr. cbn in Hr.
    destruct Hr as [<-|[<-|[<-|[]]]]; split; vm_compute; reflexivity. }
  split.
  - apply (markers_stand_where_covered frame_abc "1" 1 H); [lia|].
    exists seg_a. split; [left; reflexivity | vm_compute; reflexivity].
  - intros Hin.
    assert (H2 : (2 < 500)%nat) by lia.
    destruct (proj1 (markers_stand_where_covered frame_abc "1" 2 H H2) Hin)
      as (r & Hr & Hc).
    cbn in Hr.
    destruct Hr as [<-|[<-|[<-|[]]]]; vm_compute in Hc; discriminate Hc.
Defined.

(** X7.  When every strength is a valid binary64 value above 0, a row of
    one of the 22 chromosomes that overlaps the span of the grid and is at
    least 501,003 base pairs long always shows: its chromosome gets a
    marker trace and is not classified sea. *)
Theorem long_segments_show (df : DataFrame) (chrom : string) (row : Segment) :
  (forall r, In r (rows df) ->
             gtb_Z (Centimorgans r) 0 = true /\ valid (Centimorgans r) = true) ->
  In row (rows df) ->
  Chromosome row = LStr chrom ->
  Start_Location row <= max_position ->
  0 <= End_Location row ->
  501003 <= End_Location row - Start_Location row ->
  classify (np_max (profile df chrom)) <> Sea /\
  ridge_traces df chrom =
  [line_trace chrom (profile df chrom);
   marker_trace chrom (profile df chrom) (where_positive (profile df chrom))
                (color (classify (np_max (profile df chrom))))].
Proof.
  intros H Hrow Hc Hs He Hlen.
  destruct (proj1 (long_segments_reach_the_grid row Hs He Hlen))
    as (i & Hi & Hm).
  assert (Hin : In i (where_positive (profile df chrom))).
  { apply (markers_stand_where_covered df chrom i H Hi).
    exists row. split; [exact Hrow|]. unfold covering.
    rewrite Hc, Hm. cbn [label_eqb]. rewrite String.eqb_refl. reflexivity. }
  assert (N : forall r, In r (rows df) -> geb_Z (Centimorgans r) 0 = true).
  { intros r Hr. apply gtb_Z_geb_Z, H, Hr. }
  assert (S : classify (np_max (profile df chrom)) <> Sea).
  { intros X. destruct (proj1 (sea_is_never_drawn df chrom N) X) as [R _].
    unfold ridge_traces in R.
    destruct (where_positive (profile df chrom)) as [|j l];
      [destruct Hin|].
    apply (f_equal (@List.length Scatter3d)) in R.
    cbn [List.length Nat.ltb Nat.leb] in R. discriminate R. }
  split; [exact S|].
  apply (proj2 (sea_is_never_drawn df chrom N) S).
Qed.

Lemma long_segments_show_witness :
  classify (np_max (profile frame_abc "1")) <> Sea.
Proof.
  apply (long_segments_show frame_abc "1" seg_a).
  - intros r Hr. cbn in Hr.
    destruct Hr as [<-|[<-|[<-|[]]]]; split; vm_compute; reflexivity.
  - left. reflexivity.
  - reflexivity.
  - vm_compute. discriminate.
  - vm_compute. discriminate.
  - vm_compute. discriminate.
Defined.

(** ** Bounding twice, filtering twice *)

Lemma n_matches_survivors {pd : Pandas} (df : DataFrame) :
  (n_matches (survivors df) <= 10)%nat.
Proof.
  unfold survivors. destruct (Nat.ltb_spec 10 (n_matches df)) as [H|H];
    [|exact H].
  apply Nat.le_trans with (List.length (top_matches df)).
  - unfold n_matches. apply NoDup_incl_length; [apply unique_NoDup|].
    intros m Hm. apply (proj1 (unique_In _ _)) in Hm.
    cbn [select rows] in Hm.
    apply in_map_iff in Hm. destruct Hm as (r & <- & Hr).
    apply filter_In in Hr. apply isin_In, Hr.
  - unfold top_matches. rewrite length_map.
    pose proof (firstn_le_length 5 (match_totals df)). lia.
Qed.

(** X8.  Bounding is idempotent, whatever [sort_values] and the group sum
    do: the rows the builder keeps hold at most ten match names, so
    building again from them keeps them all, writes no warning and returns
    the same figure. *)
Theorem bounding_is_idempotent {pd : Pandas} (df : DataFrame) (p : page) :
  (n_matches (value (bound_matches df) p) <= 10)%nat /\
  bound_matches (value (bound_matches df) p) p =
    (value (bound_matches df) p, p) /\
  create_topography (value (bound_matches df) p) p =
    (value (create_topography df) p, p).
Proof.
  unfold value. rewrite bound_matches_run, create_topography_run.
  cbn [fst]. pose proof (n_matches_survivors df) as H.
  split; [exact H|].
  rewrite bound_matches_run, create_topography_run.
  unfold topography at 1.
  rewrite (survivors_small _ H), (notices_small _ H), app_nil_r.
  split; reflexivity.
Qed.

Lemma geb_Z_max (c : float64) (a b : Z) :
  geb_Z c b && geb_Z c a = geb_Z c (Z.max a b).
Proof.
  destruct (Z.max_spec a b) as [[L ->]|[L ->]].
  - destruct (geb_Z c b) eqn:B; [|reflexivity].
    apply (geb_Z_weaken c b a B). lia.
  - destruct (geb_Z c a) eqn:A; [|apply andb_false_r].
    rewrite (geb_Z_weaken c a b A) by lia. reflexivity.
Qed.

(** X9.  Filtering at one threshold and then at another is filtering once
    at the larger of the two; so a higher slider value keeps a part of
    what a lower one keeps, and filtering again at the same value changes
    nothing. *)
Theorem thresholds_compose (df : DataFrame) (a b : Z) :
  threshold a (threshold b df) = threshold (Z.max a b) df /\
  threshold a (threshold a df) = threshold a df /\
  (a <= b ->
   forall r, In r (rows (threshold b df)) -> In r (rows (threshold a df))).
Proof.
  assert (C : forall x y, threshold x (threshold y df)
                          = threshold (Z.max x y) df).
  { intros x y. unfold threshold, select. cbn [rows columns].
    rewrite filter_filter. f_equal. apply filter_ext. intros r.
    apply geb_Z_max. }
  split; [apply C|]. split; [rewrite C, Z.max_id; reflexivity|].
  intros L r Hr. unfold threshold, select in *. cbn [rows] in *.
  apply filter_In in Hr. apply filter_In. split; [apply Hr|].
  apply (geb_Z_weaken _ b a); [apply Hr | exact L].
Qed.

Lemma thresholds_compose_witness :
  In (mkSegment (LStr "1") 0 1000000 (of_Z 7) "M7")
     (rows (threshold 3 frame_eleven)).
Proof.
  apply (proj2 (proj2 (thresholds_compose frame_eleven 3 6)) ltac:(lia)).
  vm_compute. auto 20.
Defined.

(** ** The shape of the figure *)

Lemma where_positive_length (a : list float64) :
  (List.length (where_positive a) <= List.length a)%nat.
Proof.
  unfold where_positive.
  pose proof (filter_length_le (fun i => gtb_Z (nth i a zero) 0)
                               (seq 0 (List.length a))) as H.
  rewrite length_seq in H. exact H.
Qed.

Lemma ridge_traces_count (df : DataFrame) (chrom : string) :
  (1 <= List.length (ridge_traces df chrom) <= 2)%nat.
Proof.
  unfold ridge_traces. destruct (0 <? _)%nat; cbn [List.length]; lia.
Qed.

Lemma flat_map_count {A B : Type} (f : A -> list B) (l : list A) :
  (forall a, 1 <= List.length (f a) <= 2)%nat ->
  (List.length l <= List.length (flat_map f l) <= 2 * List.length l)%nat.
Proof.
  intros H. induction l as [|a l IH]; cbn [flat_map List.length]; [lia|].
  rewrite length_app. specialize (H a). lia.
Qed.

(** X10.  Every figure the builder returns is well formed: it carries the
    fixed layout and between 22 and 44 traces, and in every trace the
    three coordinate arrays have one common length of at most 500, which
    the hover texts share when there are any; a line trace has all 500
    points and no texts, a marker trace has at least one point and one
    text per point. *)
Theorem figures_are_well_formed {pd : Pandas} (df : DataFrame) (p : page) :
  layout (value (create_topography df) p) = Some scene_layout /\
  (22 <= List.length (data (value (create_topography df) p)) <= 44)%nat /\
  forall t, In t (data (value (create_topography df) p)) ->
    List.length (tr_x t) = List.length (tr_z t) /\
    List.length (tr_y t) = List.length (tr_z t) /\
    (List.length (tr_z t) <= 500)%nat /\
    (tr_mode t = "lines" /\ List.length (tr_z t) = 500%nat /\
     tr_text t = None
     \/
     tr_mode t = "markers" /\ (1 <= List.length (tr_z t))%nat /\
     exists texts, tr_text t = Some texts /\
                   List.length texts = List.length (tr_z t)).
Proof.
  unfold value. rewrite create_topography_run. cbn [fst].
  split; [reflexivity|]. rewrite topography_data. split.
  { pose proof (flat_map_count (ridge_traces (survivors df)) chromosomes
                               (ridge_traces_count (survivors df))) as H.
    change (List.length chromosomes) with 22%nat in H. lia. }
  intros t Ht. apply in_flat_map in Ht. destruct Ht as (chrom & _ & Ht).
  unfold ridge_traces in Ht.
  pose proof (profile_length (survivors df) chrom) as L.
  pose proof (where_positive_length (profile (survivors df) chrom)) as W.
  rewrite L in W.
  destruct Ht as [<-|Ht].
  - unfold line_trace. cbn [tr_x tr_y tr_z tr_mode tr_text].
    rewrite full_like_length, x_base_length, L.
    split; [reflexivity|]. split; [reflexivity|]. split; [lia|].
    left. split; [reflexivity|]. split; reflexivity.
  - destruct (where_positive (profile (survivors df) chrom)) as [|i idx] eqn:E;
      [destruct Ht|].
    cbn [List.length Nat.ltb Nat.leb] in Ht. destruct Ht as [<-|[]].
    unfold marker_trace, take, full_like.
    cbn [tr_x tr_y tr_z tr_mode tr_text].
    rewrite !length_map. cbn [List.length] in *.
    split; [reflexivity|]. split; [reflexivity|]. split; [lia|].
    right. split; [reflexivity|]. split; [lia|].
    eexists. split; [reflexivity|]. rewrite !length_map. reflexivity.
Qed.

Lemma figures_are_well_formed_witness :
  List.length (tr_x (nth 1 (data (value (@create_topography reference_pandas
                                           frame_abc) []))
                         (line_trace "" [])))
  = List.length (tr_z (nth 1 (data (value (@create_topography reference_pandas
                                             frame_abc) []))
                           (line_trace "" []))).
Proof.
  destruct (@figures_are_well_formed reference_pandas frame_abc [])
    as (_ & _ & H).
  apply H. apply nth_In. unfold value. rewrite create_topography_run.
  cbn [fst]. rewrite topography_data. vm_compute. lia.
Defined.

(** X11.  The axis ticks name the ridges: for every chromosome [c] from 1
    to 22, the line trace of [c] is named "Chr c" and lies at second
    coordinate [23 - c], and the tick the layout puts at [23 - c] reads
    "Chr c". *)
Theorem ticks_name_the_ridges (c : Z) :
  1 <= c <= 22 ->
  In (23 - c, ("Chr " ++ str c)%string)
     (combine (yaxis_tickvals scene_layout) (yaxis_ticktext scene_layout)) /\
  forall y_base,
    tr_name (line_trace (str c) y_base) = Some ("Chr " ++ str c)%string /\
    tr_y (line_trace (str c) y_base) = full_like x_base (of_Z (23 - c)).
Proof.
  intros H. split.
  - rewrite <- (Z2Nat.id c) by lia.
    assert (Hn : (1 <= Z.to_nat c <= 22)%nat) by lia.
    remember (Z.to_nat c) as n eqn:E. clear E H c.
    do 23 (destruct n as [|n]; [try lia; vm_compute; tauto|]).
    lia.
  - intros y_base. unfold line_trace. cbn [tr_name tr_y].
    rewrite (proj2 (chromosome_label c H)). split; reflexivity.
Qed.

Lemma ticks_name_the_ridges_witness :
  In (22, "Chr 1")
     (combine (yaxis_tickvals scene_layout) (yaxis_ticktext scene_layout)).
Proof.
  apply (proj1 (ticks_name_the_ridges 1 ltac:(lia))).
Defined.

(** ** Frames without a usable chromosome label *)

Lemma flat_has_no_positive : where_positive (full_like x_base zero) = [].
Proof. vm_compute. reflexivity. Qed.

Lemma autosomal_false (r : Segment) (chrom : string) :
  autosomal r = false -> In chrom chromosomes ->
  label_eqb (Chromosome r) chrom = false.
Proof.
  unfold autosomal. intros H Hc.
  destruct (label_eqb (Chromosome r) chrom) eqn:E; [|reflexivity].
  assert (X : existsb (label_eqb (Chromosome r)) chromosomes = true)
    by (apply existsb_exists; exists chrom; split; assumption).
  rewrite X in H. discriminate.
Qed.

(** X12.  A frame in which no row carries one of the 22 string labels,
    as when pandas reads an all-numeric Chromosome column as integers or
    when the export holds only X segments, gives the figure of the empty
    frame: 22 flat line traces and no marker. *)
Theorem unlabelled_frames_stay_flat {pd : Pandas} (df : DataFrame) (p : page) :
  (forall r, In r (rows df) -> autosomal r = false) ->
  data (value (create_topography df) p) =
    map (fun chrom => line_trace chrom (full_like x_base zero)) chromosomes /\
  value (create_topography df) p =
    value (create_topography (mkDataFrame (columns df) [])) p.
Proof.
  intros H.
  assert (F : forall d : DataFrame,
             (forall r, In r (rows d) -> autosomal r = false) ->
             flat_map (ridge_traces (survivors d)) chromosomes =
             map (fun chrom => line_trace chrom (full_like x_base zero))
                 chromosomes).
  { intros d Hd.
    assert (Z : forall chrom, In chrom chromosomes ->
                  ridge_traces (survivors d) chrom =
                  [line_trace chrom (full_like x_base zero)]).
    { intros chrom Hc. unfold ridge_traces.
      rewrite (profile_flat (survivors d) chrom), flat_has_no_positive;
        [reflexivity|].
      intros r Hr. apply autosomal_false; [|exact Hc].
      apply Hd, survivors_incl, Hr. }
    induction chromosomes as [|c cs IH]; [reflexivity|].
    cbn [flat_map map]. rewrite (Z c (or_introl eq_refl)), IH; [reflexivity|].
    intros chrom Hc. apply Z. right. exact Hc. }
  unfold value. rewrite !create_topography_run. cbn [fst].
  split; [rewrite topography_data; apply F; exact H|].
  apply figure_ext; [|reflexivity].
  rewrite !topography_data, (F df H), F; [reflexivity|].
  intros r Hr. destruct Hr.
Qed.

Lemma unlabelled_frames_stay_flat_witness :
  data (value (@create_topography reference_pandas
                 (mkDataFrame required_cols
                    [mkSegment (LInt 1) 0 1000000 (of_Z 7) "A";
                     mkSegment (LStr "X") 0 1000000 (of_Z 9) "B"])) []) =
  map (fun chrom => line_trace chrom (full_like x_base zero)) chromosomes.
Proof.
  apply (@unlabelled_frames_stay_flat reference_pandas
           (mkDataFrame required_cols
              [mkSegment (LInt 1) 0 1000000 (of_Z 7) "A";
               mkSegment (LStr "X") 0 1000000 (of_Z 9) "B"]) []).
  intros r Hr. cbn [rows In] in Hr.
  destruct Hr as [<-|[<-|[]]]; vm_compute; reflexivity.
Defined.
